(** * Room lifecycle and presence coordination of the chat backend

    A shallow embedding of the room handlers of [server.py] and of the
    presence handlers of [socketio_server.py], with the properties of the
    room-lifecycle specification stated and proved over them.

    Conventions of the embedding:
    - a MongoDB collection keyed by [_id] is a [gmap] from the id to the
      document; the [room_messages] collection is a list of documents;
    - an [ObjectId] is represented by the text [str(_id)] under which the
      server prints it; a room's messages carry the room id as the text
      the client sent in the path, which [ObjectId(room_id)] may read as
      the id of a room printed in another spelling;
    - a [datetime] is an integer number of microseconds since the epoch
      (the resolution of Python's [datetime]); the normalisation of stored
      timestamps (ISO strings, naive datetimes) to aware datetimes is the
      identity on this representation;
    - [datetime.now(timezone.utc)] is a parameter [now] of every handler
      that reads the clock;
    - an [async] handler is a computation in the monad [M]: it reads and
      writes the [world] (database, emitted events, created tasks) and
      either returns a value or raises an [HTTPException]; what was
      written before the exception stays written. *)

From stdpp Require Import base option list gmap strings pretty.
From Stdlib Require Import ZArith Lia Ascii.

#[local] Open Scope string_scope.
#[local] Open Scope list_scope.
#[local] Open Scope Z_scope.

(** ** Time *)

Definition microseconds_per_second : Z := 1000000.

(** [timedelta(hours=h)] and [timedelta(minutes=m)] *)
Definition timedelta_hours (h : Z) : Z := h * 3600 * microseconds_per_second.
Definition timedelta_minutes (m : Z) : Z := m * 60 * microseconds_per_second.

(** [int(d.total_seconds())] for a timedelta [d]; [int] truncates towards zero *)
Definition total_seconds_int (d : Z) : Z := Z.quot d microseconds_per_second.

Module Server.

(** ** Documents *)

(** An entry of a room's [banned_users] array. *)
Record ban := Ban {
  ban_user_id : string;
  banned_until : Z
}.

(** A document of [db.chat_rooms] (the fields written by [create_room],
    plus [banned_users], which [kick_user] pushes to; a missing
    [banned_users] or [members] field reads as the empty list, as
    [room.get(_, [])] does). [expires_at] is absent in rooms created
    before the field was introduced. *)
Record room := Room {
  name : string;
  description : option string;
  is_public : bool;
  creator_id : string;
  admin_id : string;
  members : list string;
  password : option string;
  max_members : option Z;
  created_at : Z;
  expires_at : option Z;
  banned_users : list ban
}.

(** A document of [db.room_messages]. *)
Record room_message := RoomMessage {
  msg_room_id : string;
  msg_user_id : string;
  msg_username : string;
  msg_message : string;
  msg_created_at : Z
}.

#[global] Instance ban_eq_dec : EqDecision ban.
Proof. solve_decision. Defined.
#[global] Instance room_eq_dec : EqDecision room.
Proof. solve_decision. Defined.
#[global] Instance room_message_eq_dec : EqDecision room_message.
Proof. solve_decision. Defined.

(** ** Events handed to the Socket.IO server *)

Inductive event :=
  | room_created (room_id : string)
  | room_expired (room_id message : string)
  | room_list_updated (action room_id : string)
  | room_deleted (room_id message : string)
  | user_kicked (room_id user_id room_name : string) (banned_until_iso : Z)
  | messages_cleared (room_id kicked_user_id : string)
  | admin_transferred (room_id new_admin_id : string).

(** One call [sio.emit(event, data, room=...)]; [emit_room = None] is a
    broadcast to every connected client. *)
Record emit := Emit {
  emit_event : event;
  emit_room : option string
}.

#[global] Instance event_eq_dec : EqDecision event.
Proof. solve_decision. Defined.
#[global] Instance emit_eq_dec : EqDecision emit.
Proof. solve_decision. Defined.

(** [f"room_{room_id}"] *)
Definition room_channel (room_id : string) : string := "room_" +:+ room_id.

(** ** The world a handler runs in *)

Record world := World {
  chat_rooms : gmap string room;
  room_messages : list room_message;
  outbox : list emit;                (* calls of [sio.emit], oldest first *)
  tasks : list (string * Z)          (* [asyncio.create_task(schedule_room_deletion(id, expires_at))] *)
}.

Definition set_chat_rooms (f : gmap string room → gmap string room) (w : world) : world :=
  {| chat_rooms := f (chat_rooms w); room_messages := room_messages w;
     outbox := outbox w; tasks := tasks w |}.
Definition set_room_messages (f : list room_message → list room_message) (w : world) : world :=
  {| chat_rooms := chat_rooms w; room_messages := f (room_messages w);
     outbox := outbox w; tasks := tasks w |}.
Definition set_outbox (f : list emit → list emit) (w : world) : world :=
  {| chat_rooms := chat_rooms w; room_messages := room_messages w;
     outbox := f (outbox w); tasks := tasks w |}.
Definition set_tasks (f : list (string * Z) → list (string * Z)) (w : world) : world :=
  {| chat_rooms := chat_rooms w; room_messages := room_messages w;
     outbox := outbox w; tasks := f (tasks w) |}.

(** ** Handlers as computations *)

Record HTTPException := HTTPError {
  status_code : Z;
  detail : string
}.

#[global] Instance HTTPException_eq_dec : EqDecision HTTPException.
Proof. solve_decision. Defined.

Definition M (A : Type) : Type := world → (HTTPException + A) * world.

#[global] Instance M_ret : MRet M := λ A x w, (inr x, w).
#[global] Instance M_bind : MBind M := λ A B f m w,
  match m w with
  | (inl e, w') => (inl e, w')
  | (inr x, w') => f x w'
  end.

Definition raise {A} (e : HTTPException) : M A := λ w, (inl e, w).

(** [for x in l: body(x)] *)
Fixpoint for_ {A} (l : list A) (body : A → M unit) : M unit :=
  match l with
  | [] => mret tt
  | x :: l' => body x ;; for_ l' body
  end.

(** *** Object ids (bson) *)

(** [bson.ObjectId(text)]: the id that a text denotes, or [None] where
    the library raises [InvalidId]. The library is not part of the
    program; the handlers are stated for any such reading of ids. *)
Class Bson := ObjectId : string → option string.

(** [ObjectId(room_id)] inside a handler: no handler catches
    [InvalidId], so the request is answered with status 500. *)
Definition object_id `{!Bson} (room_id : string) : M string :=
  match ObjectId room_id with
  | Some _id => mret _id
  | None => raise (HTTPError 500 "Internal Server Error")
  end.

(** A query [{"_id": ObjectId(room_id)}] on [db.chat_rooms], for an
    operation [op] that takes the id. *)
Definition by_id `{!Bson} {A} (room_id : string) (op : string → M A) : M A :=
  _id ← object_id room_id; op _id.

(** *** Database operations (motor) *)

(** [db.chat_rooms.find_one({"_id": _id})] *)
Definition find_one (room_id : string) : M (option room) :=
  λ w, (inr (chat_rooms w !! room_id), w).

(** [db.chat_rooms.find({}).to_list(n)] *)
Definition find_to_list (n : nat) : M (list (string * room)) :=
  λ w, (inr (take n (map_to_list (chat_rooms w))), w).

(** [db.chat_rooms.insert_one(room)], with the [_id] the driver assigns *)
Definition insert_one (inserted_id : string) (r : room) : M unit :=
  λ w, (inr tt, set_chat_rooms (insert inserted_id r) w).

(** [db.chat_rooms.delete_one({"_id": _id})] *)
Definition delete_one (room_id : string) : M unit :=
  λ w, (inr tt, set_chat_rooms (delete room_id) w).

(** [db.chat_rooms.update_one({"_id": _id}, update)]: the
    update is applied to the stored document, when there is one. *)
Definition update_one (room_id : string) (update : room → room) : M unit :=
  λ w, (inr tt, set_chat_rooms (alter update room_id) w).

(** [db.room_messages.delete_many(query)], returning [deleted_count] *)
Definition delete_many (query : room_message → bool) : M nat :=
  λ w, (inr (length (filter (λ m, query m = true) (room_messages w))),
        set_room_messages (filter (λ m, query m ≠ true)) w).

(** [sio.emit(event, data, room=room)] *)
Definition sio_emit (e : event) (to : option string) : M unit :=
  λ w, (inr tt, set_outbox (λ o, o ++ [Emit e to]) w).

(** [asyncio.create_task(schedule_room_deletion(room_id, expires_at))] *)
Definition create_task (room_id : string) (expires_at : Z) : M unit :=
  λ w, (inr tt, set_tasks (λ t, t ++ [(room_id, expires_at)]) w).

(** *** Update operators *)

Definition with_members (f : list string → list string) (r : room) : room :=
  {| name := name r; description := description r; is_public := is_public r;
     creator_id := creator_id r; admin_id := admin_id r; members := f (members r);
     password := password r; max_members := max_members r;
     created_at := created_at r; expires_at := expires_at r;
     banned_users := banned_users r |}.
Definition with_banned_users (f : list ban → list ban) (r : room) : room :=
  {| name := name r; description := description r; is_public := is_public r;
     creator_id := creator_id r; admin_id := admin_id r; members := members r;
     password := password r; max_members := max_members r;
     created_at := created_at r; expires_at := expires_at r;
     banned_users := f (banned_users r) |}.
Definition with_admin_id (a : string) (r : room) : room :=
  {| name := name r; description := description r; is_public := is_public r;
     creator_id := creator_id r; admin_id := a; members := members r;
     password := password r; max_members := max_members r;
     created_at := created_at r; expires_at := expires_at r;
     banned_users := banned_users r |}.
Definition with_expires_at (e : Z) (r : room) : room :=
  {| name := name r; description := description r; is_public := is_public r;
     creator_id := creator_id r; admin_id := admin_id r; members := members r;
     password := password r; max_members := max_members r;
     created_at := created_at r; expires_at := Some e;
     banned_users := banned_users r |}.

(** [{"$pull": {"members": user_id}}]: every occurrence is removed *)
Definition pull_member (user_id : string) : room → room :=
  with_members (filter (λ m, m ≠ user_id)).

(** [{"$addToSet": {"members": user_id}}] *)
Definition add_to_set_member (user_id : string) : room → room :=
  with_members (λ ms, if bool_decide (user_id ∈ ms) then ms else ms ++ [user_id]).

(** [{"$pull": {"banned_users": {"user_id": user_id}}}]: every entry of
    the user is removed *)
Definition pull_ban (user_id : string) : room → room :=
  with_banned_users (filter (λ b, ban_user_id b ≠ user_id)).

(** [{"$push": {"banned_users": {"user_id": .., "banned_until": ..}}}] *)
Definition push_ban (b : ban) : room → room :=
  with_banned_users (λ bs, bs ++ [b]).

(** ** [schedule_room_deletion] (server.py, lines 86-124) *)

(** [wait_seconds = (expires_at - now).total_seconds()]: the task sleeps
    only when this is positive, so it wakes at [wake_time]. *)
Definition wait_seconds (expires_at now : Z) : Z := expires_at - now.

Definition wake_time (expires_at now : Z) : Z :=
  if 0 <? wait_seconds expires_at now then now + wait_seconds expires_at now else now.

Definition msg_expired : string := "This room has expired and been deleted.".

(** The body of the task from the moment [asyncio.sleep] returns. *)
Definition schedule_room_deletion (room_id : string) : M unit :=
  room ← find_one room_id;
  match room with
  | None => mret tt
  | Some _ =>
      delete_one room_id ;;
      delete_many (λ m, bool_decide (msg_room_id m = room_id)) ;;
      sio_emit (room_expired room_id msg_expired) (Some (room_channel room_id)) ;;
      sio_emit (room_list_updated "expired" room_id) None
  end.

(** ** [create_room] (server.py, lines 458-496) *)

(** The body of [RoomCreate]. *)
Record RoomCreate := {
  rc_name : string;
  rc_description : option string;
  rc_creator_id : string;
  rc_is_public : bool;
  rc_password : option string;
  rc_max_members : option Z
}.

Definition create_room (room_data : RoomCreate) (now : Z) (inserted_id : string) : M room :=
  let expires_at := now + timedelta_hours 12 in
  let room :=
    {| name := rc_name room_data;
       description := rc_description room_data;
       is_public := rc_is_public room_data;
       creator_id := rc_creator_id room_data;
       admin_id := rc_creator_id room_data;
       members := [rc_creator_id room_data];
       password := rc_password room_data;
       max_members := rc_max_members room_data;
       created_at := now;
       expires_at := Some expires_at;
       banned_users := [] |} in
  insert_one inserted_id room ;;
  create_task inserted_id expires_at ;;
  sio_emit (room_created inserted_id) None ;;
  mret room.

(** ** [get_room] (server.py, lines 579-601) *)

(** The room is looked up and deleted under [ObjectId(room_id)]; its
    messages are deleted under the text [room_id] of the path. *)
Definition get_room `{!Bson} (room_id : string) (now : Z) : M room :=
  room ← by_id room_id find_one;
  match room with
  | None => raise (HTTPError 404 "Room not found")
  | Some room =>
      match expires_at room with
      | Some expires_at =>
          if bool_decide (expires_at ≤ now) then
            by_id room_id delete_one ;;
            delete_many (λ m, bool_decide (msg_room_id m = room_id)) ;;
            raise (HTTPError 410 "Room has expired")
          else mret room
      | None => mret room
      end
  end.

(** ** [join_room] (server.py, lines 607-675) *)

(** The handler reaches [db.chat_rooms] only, under [ObjectId(room_id)]
    throughout: it is stated for a [room_id] that is the text of the
    room's id. *)

(** The detail of the 403 raised for a ban that is still running. *)
Definition ban_detail (banned_until now : Z) : string :=
  let time_remaining := total_seconds_int (banned_until - now) in
  let minutes := time_remaining `div` 60 in
  let seconds := time_remaining `mod` 60 in
  "You are banned from this room for " +:+ pretty minutes +:+ "m "
    +:+ pretty seconds +:+ "s".

(** Truth value of [room.get("password")] and of [room.get("max_members")] *)
Definition truthy_str (o : option string) : bool :=
  match o with Some s => bool_decide (s ≠ "") | None => false end.
Definition truthy_int (o : option Z) : bool :=
  match o with Some n => bool_decide (n ≠ 0) | None => false end.

(** Lines 619-643: the body of the loop over the ban entries. *)
Definition join_room_ban (room_id user_id : string) (now : Z) (ban : ban) : M unit :=
  if bool_decide (ban_user_id ban = user_id) then
    if bool_decide (banned_until ban > now) then
      raise (HTTPError 403 (ban_detail (banned_until ban) now))
    else
      update_one room_id (pull_ban user_id)
  else mret tt.

(** Lines 614-643: the loop over the ban entries of the fetched room. *)
Definition join_room_bans (room_id user_id : string) (now : Z) (room : room) : M unit :=
  for_ (banned_users room) (join_room_ban room_id user_id now).

(** Lines 645-675: membership, password and capacity, on the fetched room. *)
Definition join_room_members (room_id user_id : string) (request_password : option string)
    (room : room) : M bool :=
  let is_already_member := bool_decide (user_id ∈ members room) in
  (if negb is_already_member then
     (if truthy_str (password room) && bool_decide (password room ≠ request_password)
      then raise (HTTPError 403 "Invalid password") else mret tt) ;;
     (if truthy_int (max_members room)
           && bool_decide (default 0 (max_members room) ≤ Z.of_nat (length (members room)))
      then raise (HTTPError 403 "Room is full") else mret tt) ;;
     update_one room_id (add_to_set_member user_id)
   else mret tt) ;;
  sio_emit (room_list_updated "member_joined" room_id) None ;;
  mret true.

Definition join_room (room_id user_id : string) (request_password : option string)
    (now : Z) : M bool :=
  room ← find_one room_id;
  match room with
  | None => raise (HTTPError 404 "Room not found")
  | Some room =>
      join_room_bans room_id user_id now room ;;
      join_room_members room_id user_id request_password room
  end.

(** ** [leave_room] (server.py, lines 680-725) *)

Record LeaveResponse := { leave_success : bool; room_deleted_flag : bool }.

Definition msg_owner_left : string := "Room has been deleted because the owner left.".

Definition leave_room `{!Bson} (room_id user_id : string) : M LeaveResponse :=
  room ← by_id room_id find_one;
  match room with
  | None => raise (HTTPError 404 "Room not found")
  | Some room =>
      let is_admin := bool_decide (admin_id room = user_id) in
      if is_admin then
        by_id room_id delete_one ;;
        delete_many (λ m, bool_decide (msg_room_id m = room_id)) ;;
        sio_emit (room_deleted room_id msg_owner_left) (Some (room_channel room_id)) ;;
        sio_emit (room_list_updated "deleted" room_id) None ;;
        mret {| leave_success := true; room_deleted_flag := true |}
      else
        by_id room_id (λ _id, update_one _id (pull_member user_id)) ;;
        sio_emit (room_list_updated "member_left" room_id) None ;;
        mret {| leave_success := true; room_deleted_flag := false |}
  end.

(** ** [delete_room] (server.py, lines 730-750) *)

Definition msg_deleted_by_admin : string := "Room has been deleted by admin.".

Definition delete_room `{!Bson} (room_id user_id : string) : M bool :=
  room ← by_id room_id find_one;
  match room with
  | None => raise (HTTPError 404 "Room not found")
  | Some room =>
      if bool_decide (admin_id room ≠ user_id) then
        raise (HTTPError 403 "Only admin can delete room")
      else
        by_id room_id delete_one ;;
        delete_many (λ m, bool_decide (msg_room_id m = room_id)) ;;
        sio_emit (room_deleted room_id msg_deleted_by_admin) (Some (room_channel room_id)) ;;
        mret true
  end.

(** ** [kick_user] (server.py, lines 762-826) *)

Record KickResponse := {
  kick_success : bool;
  messages_deleted : nat;
  kick_banned_until : Z
}.

Definition kick_user `{!Bson} (room_id request_admin_id request_user_id : string)
    (now : Z) : M KickResponse :=
  room ← by_id room_id find_one;
  match room with
  | None => raise (HTTPError 404 "Room not found")
  | Some room =>
      if bool_decide (admin_id room ≠ request_admin_id) then
        raise (HTTPError 403 "Only admin can kick users")
      else if bool_decide (request_user_id ∉ members room) then
        raise (HTTPError 400 "User not in room")
      else if bool_decide (request_user_id = request_admin_id) then
        raise (HTTPError 400 "Cannot kick yourself")
      else
        deleted_count ← delete_many (λ m,
          bool_decide (msg_room_id m = room_id) && bool_decide (msg_user_id m = request_user_id));
        let ban_until := now + timedelta_minutes 5 in
        by_id room_id (λ _id, update_one _id (λ r,
          push_ban {| ban_user_id := request_user_id; banned_until := ban_until |}
            (pull_member request_user_id r))) ;;
        sio_emit (user_kicked room_id request_user_id (name room) ban_until)
          (Some (room_channel room_id)) ;;
        sio_emit (room_list_updated "member_kicked" room_id) None ;;
        sio_emit (messages_cleared room_id request_user_id) (Some (room_channel room_id)) ;;
        mret {| kick_success := true; messages_deleted := deleted_count;
                kick_banned_until := ban_until |}
  end.

(** ** [transfer_admin] (server.py, lines 828-854) *)

Definition transfer_admin `{!Bson} (room_id current_admin_id new_admin_id : string)
    : M bool :=
  room ← by_id room_id find_one;
  match room with
  | None => raise (HTTPError 404 "Room not found")
  | Some room =>
      if bool_decide (admin_id room ≠ current_admin_id) then
        raise (HTTPError 403 "Only admin can transfer rights")
      else if bool_decide (new_admin_id ∉ members room) then
        raise (HTTPError 400 "New admin must be a member")
      else
        by_id room_id (λ _id, update_one _id (with_admin_id new_admin_id)) ;;
        sio_emit (admin_transferred room_id new_admin_id) (Some (room_channel room_id)) ;;
        mret true
  end.

(** ** [startup_db_indexes] (server.py, lines 1016-1079) *)

(** The reconciliation of one listed room (the body of the loop, lines
    1041-1076): [room] is the document as it was listed. *)
Definition startup_room (now : Z) (listed : string * room) : M unit :=
  let '(room_id, room) := listed in
  expires_at ←
    match expires_at room with
    | None =>
        let expires_at := created_at room + timedelta_hours 12 in
        update_one room_id (with_expires_at expires_at) ;;
        mret expires_at
    | Some expires_at => mret expires_at
    end;
  if bool_decide (expires_at ≤ now) then
    delete_one room_id ;;
    delete_many (λ m, bool_decide (msg_room_id m = room_id)) ;;
    mret tt
  else
    create_task room_id expires_at.

(** The index creation of lines 1021-1032 changes no document; the
    listing is capped by [to_list(1000)]. *)
Definition startup_db_indexes (now : Z) : M unit :=
  existing_rooms ← find_to_list 1000;
  for_ existing_rooms (startup_room now).

(** ** [save_room_message] (server.py, lines 867-887) *)

(** [db.room_messages.insert_one(msg)] *)
Definition insert_message (msg : room_message) : M unit :=
  λ w, (inr tt, set_room_messages (λ ms, ms ++ [msg]) w).

(** The nickname of the sender is stored both as [user_id] and as
    [username]; the room is not looked up. *)
Definition save_room_message (room_id request_user_id request_message : string)
    (now : Z) : M room_message :=
  let msg :=
    {| msg_room_id := room_id;
       msg_user_id := request_user_id;
       msg_username := request_user_id;
       msg_message := request_message;
       msg_created_at := now |} in
  insert_message msg ;;
  sio_emit (room_list_updated "new_message" room_id) None ;;
  mret msg.

(** Running a handler. *)
Definition run {A} (m : M A) (w : world) : (HTTPException + A) * world := m w.

Definition empty_world : world :=
  {| chat_rooms := ∅; room_messages := []; outbox := []; tasks := [] |}.

End Server.

Module SocketioServer.

(** ** The presence registry of [socketio_server.py]

    [data.get('user_id')] and [data.get('nickname')] are [None] when the
    key is missing, and the handlers use the value as a dictionary key
    whatever it is: keys of [connected_users] and elements of
    [online_users] are optional strings. *)

(** A value of [user_sessions]: the dictionary with the keys ['sid'] (the
    key it is stored under) and, once an identity was set, ['user_id'] and
    ['username']. *)
Record session := Session {
  user_id : option string;
  username : option string
}.

(** Calls made on the Socket.IO server, oldest first. *)
Inductive action :=
  | Disconnect (sid : string)
  | EnterRoom (sid room : string)
  | EmitUserOnline (user_id username : option string) (skip_sid : string)
  | EmitOnlineUsers (users : list (option string)) (room : string)
  | EmitUserOffline (user_id username : option string).

#[global] Instance session_eq_dec : EqDecision session.
Proof. solve_decision. Defined.
#[global] Instance action_eq_dec : EqDecision action.
Proof. solve_decision. Defined.

Record registry := Registry {
  connected_users : gmap (option string) string;   (* {user_id: socket_id} *)
  user_sessions : gmap string session;             (* {socket_id: user_data} *)
  online_users : gset (option string);
  calls : list action
}.

Definition empty_registry : registry :=
  {| connected_users := ∅; user_sessions := ∅; online_users := ∅; calls := [] |}.

Definition set_connected_users (f : gmap (option string) string → gmap (option string) string)
    (st : registry) : registry :=
  {| connected_users := f (connected_users st); user_sessions := user_sessions st;
     online_users := online_users st; calls := calls st |}.
Definition set_user_sessions (f : gmap string session → gmap string session)
    (st : registry) : registry :=
  {| connected_users := connected_users st; user_sessions := f (user_sessions st);
     online_users := online_users st; calls := calls st |}.
Definition set_online_users (f : gset (option string) → gset (option string))
    (st : registry) : registry :=
  {| connected_users := connected_users st; user_sessions := user_sessions st;
     online_users := f (online_users st); calls := calls st |}.
Definition call (a : action) (st : registry) : registry :=
  {| connected_users := connected_users st; user_sessions := user_sessions st;
     online_users := online_users st; calls := calls st ++ [a] |}.

(** Truth value of an optional string: [None] and [""] are false. *)
Definition truthy (o : option string) : bool :=
  match o with Some s => bool_decide (s ≠ "") | None => false end.

(** [f"{x}"] for an optional string *)
Definition py_str (o : option string) : string := default "None" o.

(** [connect] (lines 34-47) *)
Definition connect (sid : string) (st : registry) : registry :=
  set_user_sessions (insert sid {| user_id := None; username := None |}) st.

(** [disconnect] (lines 95-121) *)
Definition disconnect (sid : string) (st : registry) : registry :=
  match user_sessions st !! sid with
  | Some user_data =>
      let user_id := user_id user_data in
      let username := username user_data in
      let st :=
        if truthy user_id then
          set_online_users (λ s, s ∖ {[user_id]})
            (set_connected_users (delete user_id) st)
        else st in
      let st := set_user_sessions (delete sid) st in
      if truthy user_id && truthy username then
        call (EmitUserOffline user_id username) st
      else st
  | None => st
  end.

(** [sio.disconnect(sid)]: the server closes the connection and runs the
    [disconnect] handler for it. *)
Definition sio_disconnect (sid : string) (st : registry) : registry :=
  disconnect sid (call (Disconnect sid) st).

(** Lines 56-62 of [set_nickname]: the session is stored when both the
    nickname and the user id are given. *)
Definition store_session (sid : string) (nickname user_id : option string)
    (st : registry) : registry :=
  if truthy nickname && truthy user_id then
    set_user_sessions (insert sid {| user_id := user_id; username := nickname |}) st
  else st.

(** Lines 64-69 of [set_nickname]: "User already connected, disconnect
    old session". *)
Definition disconnect_old_session (user_id : option string) (st : registry) : registry :=
  match connected_users st !! user_id with
  | Some old_sid =>
      if bool_decide (is_Some (user_sessions st !! old_sid)) then
        sio_disconnect old_sid st
      else st
  | None => st
  end.

(** [set_nickname] (lines 49-93); the calls on the server are recorded
    and do not raise, so the handler returns [True]. *)
Definition set_nickname (sid : string) (nickname user_id : option string)
    (st : registry) : registry :=
  let st := store_session sid nickname user_id st in
  let st := disconnect_old_session user_id st in
  let st := set_connected_users (insert user_id sid) st in
  let st := set_online_users (λ s, s ∪ {[user_id]}) st in
  let st := call (EnterRoom sid ("user_" +:+ py_str user_id)) st in
  let st := call (EmitUserOnline user_id nickname sid) st in
  let online_list := filter (λ uid, uid ≠ user_id) (elements (online_users st)) in
  call (EmitOnlineUsers online_list sid) st.

End SocketioServer.

Module SocketioMessages.

(** ** The message handlers of [socketio_server.py]

    The handlers read the presence registry; [join_room] also writes the
    session of the calling connection. The events they emit are returned
    in the order of emission. [datetime.utcnow()] is read by the caller:
    [now_ts] is the text of [datetime.utcnow().timestamp()] and [now_iso]
    the text of [datetime.utcnow().isoformat()]. *)


(** The message object built by [send_message] (its ['type'] is
    ['direct']). *)
Record direct_message := DirectMessage {
  message_id : string;
  sender_id : string;
  sender_username : string;
  to_recipient_id : string;
  message_text : string;
  message_image : option string;
  message_video : option string;
  timestamp : string
}.

(** The payload of a [join_room] event. *)
Record room_data := RoomData {
  room_id : option string;
  nickname : option string;
  user_id : option string
}.

(** Calls made on the Socket.IO server. *)
Inductive outgoing :=
  | Error (message : string) (room : string)
  | ReceiveMessage (m : direct_message) (room : string)
  | MessageSent (message_id status : string) (room : string)
  | EnterRoom (sid room : string)
  | UserJoinedRoom (user_id username room_id timestamp : string) (room skip_sid : string).

#[global] Instance direct_message_eq_dec : EqDecision direct_message.
Proof. solve_decision. Defined.
#[global] Instance outgoing_eq_dec : EqDecision outgoing.
Proof. solve_decision. Defined.


(** [join_room] (lines 175-210) *)
Definition join_room (sid : string) (data : room_data) (now_iso : string)
    (st : SocketioServer.registry) : SocketioServer.registry * list outgoing :=
  match room_id data with
  | Some room =>
      if bool_decide (room ≠ "") then
        let st :=
          if SocketioServer.truthy (nickname data) && SocketioServer.truthy (user_id data)
          then
            SocketioServer.set_user_sessions
              (insert sid {| SocketioServer.user_id := user_id data;
                             SocketioServer.username := nickname data |}) st
          else st in
        let user_info := SocketioServer.user_sessions st !! sid in
        (st,
         [EnterRoom sid ("room_" +:+ room);
          UserJoinedRoom
            (default "anonymous" (user_info ≫= SocketioServer.user_id))
            (default "Anonymous" (user_info ≫= SocketioServer.username))
            room now_iso ("room_" +:+ room) sid])
      else (st, [])
  | None => (st, [])
  end.

End SocketioMessages.

Import Server.

(** * Properties *)

(** ** Scenarios and measures used in the statements *)

(** The messages of a room. *)
Definition messages_of (room_id : string) (w : world) : list room_message :=
  filter (λ m, msg_room_id m = room_id) (room_messages w).

(** The two events of an expiry, in the order they are emitted. *)
Definition expiry_events (room_id : string) : list emit :=
  [Emit (room_expired room_id "This room has expired and been deleted.")
     (Some ("room_" +:+ room_id));
   Emit (room_list_updated "expired" room_id) None].

(** How many times the expiry of [room_id] was announced. *)
Definition expirations (room_id : string) (o : list emit) : nat :=
  length (filter (λ e, emit_event e
    = room_expired room_id "This room has expired and been deleted.") o).

(** The timers that fire, in order, each running the task body. *)
Definition fire_timers (fired : list string) : M unit :=
  for_ fired schedule_room_deletion.

(** The world after a room and its messages were deleted. *)
Definition room_removed (room_id : string) (w : world) : world :=
  set_room_messages (filter (λ m, msg_room_id m ≠ room_id))
    (set_chat_rooms (delete room_id) w).

(** The world after the room stored under [_id] was deleted together
    with the messages that carry the text [room_id]. *)
Definition room_removed_as (_id room_id : string) (w : world) : world :=
  {| chat_rooms := delete _id (chat_rooms w);
     room_messages := filter (λ m, msg_room_id m ≠ room_id) (room_messages w);
     outbox := outbox w; tasks := tasks w |}.

(** The stored room after a kick of [target] with a ban until [until],
    after a transfer of the admin rights, and after a member left. *)
Definition kicked_room (target : string) (until : Z) (r : room) : room :=
  {| name := name r; description := description r; is_public := is_public r;
     creator_id := creator_id r; admin_id := admin_id r;
     members := filter (λ m, m ≠ target) (members r);
     password := password r; max_members := max_members r;
     created_at := created_at r; expires_at := expires_at r;
     banned_users := banned_users r ++ [Ban target until] |}.

Definition transferred_room (new_admin_id : string) (r : room) : room :=
  {| name := name r; description := description r; is_public := is_public r;
     creator_id := creator_id r; admin_id := new_admin_id; members := members r;
     password := password r; max_members := max_members r;
     created_at := created_at r; expires_at := expires_at r;
     banned_users := banned_users r |}.

Definition left_room (user_id : string) (r : room) : room :=
  {| name := name r; description := description r; is_public := is_public r;
     creator_id := creator_id r; admin_id := admin_id r;
     members := filter (λ m, m ≠ user_id) (members r);
     password := password r; max_members := max_members r;
     created_at := created_at r; expires_at := expires_at r;
     banned_users := banned_users r |}.

(** A reading of ids for the scenarios: a text of 24 hexadecimal digits
    denotes an id, whatever the case of its letters, and the id is
    printed in lower case. *)
Definition hex_lower (a : ascii) : option ascii :=
  match a with
  | "A" => Some "a" | "B" => Some "b" | "C" => Some "c"
  | "D" => Some "d" | "E" => Some "e" | "F" => Some "f"
  | _ => if bool_decide (a ∈ String.list_ascii_of_string "0123456789abcdef")
         then Some a else None
  end%char.

Fixpoint hex_text (s : string) : option string :=
  match s with
  | EmptyString => Some EmptyString
  | String a s => a' ← hex_lower a; s' ← hex_text s; Some (String a' s')
  end.

Definition hex_object_id : Bson :=
  λ text, if bool_decide (String.length text = 24%nat) then hex_text text else None.

(** The ban entries of a user in a room, in list order. *)
Definition user_bans (user_id : string) (r : room) : list ban :=
  filter (λ b, ban_user_id b = user_id) (banned_users r).

(** The world after [$pull]ing the ban entries of a user from a room. *)
Definition unbanned_room (user_id : string) (r : room) : room :=
  {| name := name r; description := description r; is_public := is_public r;
     creator_id := creator_id r; admin_id := admin_id r; members := members r;
     password := password r; max_members := max_members r;
     created_at := created_at r; expires_at := expires_at r;
     banned_users := filter (λ b, ban_user_id b ≠ user_id) (banned_users r) |}.

Definition bans_pulled (room_id user_id : string) (w : world) : world :=
  {| chat_rooms := alter (unbanned_room user_id) room_id (chat_rooms w);
     room_messages := room_messages w; outbox := outbox w; tasks := tasks w |}.

(** The broadcast that ends a successful join. *)
Definition member_joined (room_id : string) : emit :=
  Emit (room_list_updated "member_joined" room_id) None.



(** A full, password-protected room with members A and B. *)
Definition room_full : room :=
  {| name := "R"; description := None; is_public := false;
     creator_id := "A"; admin_id := "A"; members := ["A"; "B"];
     password := Some "abc"; max_members := Some 2;
     created_at := 0; expires_at := Some (timedelta_hours 12);
     banned_users := [] |}.

Definition world_full : world :=
  {| chat_rooms := {[ "r1" := room_full ]};
     room_messages := [RoomMessage "r1" "B" "B" "hello" 1;
                       RoomMessage "r1" "A" "A" "hi" 2;
                       RoomMessage "r2" "B" "B" "elsewhere" 3];
     outbox := []; tasks := [] |}.

(** The same room stored under the id 5f0a1b2c3d4e5f6a7b8c9d0e, with a
    message of B and a message of A. *)
Definition world_hex : world :=
  {| chat_rooms := {[ "5f0a1b2c3d4e5f6a7b8c9d0e" := room_full ]};
     room_messages := [RoomMessage "5f0a1b2c3d4e5f6a7b8c9d0e" "B" "B" "hello" 1;
                       RoomMessage "5f0a1b2c3d4e5f6a7b8c9d0e" "A" "A" "hi" 2];
     outbox := []; tasks := [] |}.

(** The messages of a room written by one user. *)
Definition authored (room_id user_id : string) (m : room_message) : Prop :=
  msg_room_id m = room_id ∧ msg_user_id m = user_id.

#[global] Instance authored_dec room_id user_id m : Decision (authored room_id user_id m).
Proof. unfold authored. apply _. Defined.

(** A public room without password, as [create_room] stores it at time 0
    for creator A under the id "r1". *)
Definition open_room_data : RoomCreate :=
  {| rc_name := "R"; rc_description := None; rc_creator_id := "A";
     rc_is_public := true; rc_password := None; rc_max_members := None |}.

Definition world_created : world :=
  (run (create_room open_room_data 0 "r1") empty_world).2.

(** The expiry the startup reconciliation works with: the stored one, or
    [created_at] plus twelve hours for a room without the field. *)
Definition effective_expiry (r : room) : Z :=
  default (created_at r + 43200000000) (expires_at r).

(** The rooms the startup reconciliation looks at. *)
Definition listed_rooms (w : world) : list (string * room) :=
  take 1000 (map_to_list (chat_rooms w)).

(** The task created for a listed room, if any. *)
Definition startup_task (now : Z) (listed : string * room) : option (string * Z) :=
  if bool_decide (effective_expiry listed.2 ≤ now) then None
  else Some (listed.1, effective_expiry listed.2).

(** The world after the reconciliation of one listed room. *)
Definition startup_room_done (now : Z) (listed : string * room) (w : world) : world :=
  let w1 :=
    match expires_at listed.2 with
    | None => set_chat_rooms (alter (with_expires_at (effective_expiry listed.2)) listed.1) w
    | Some _ => w
    end in
  if bool_decide (effective_expiry listed.2 ≤ now) then room_removed listed.1 w1
  else set_tasks (λ t, t ++ [(listed.1, effective_expiry listed.2)]) w1.

(** A database of [n] rooms, named "0", "1", ..., all expired at time 1. *)
Definition expired_room : room :=
  {| name := "R"; description := None; is_public := true;
     creator_id := "A"; admin_id := "A"; members := ["A"];
     password := None; max_members := None;
     created_at := 0; expires_at := Some 1;
     banned_users := [] |}.

Definition many_rooms (n : nat) : gmap string room :=
  list_to_map ((λ i, (pretty i, expired_room)) <$> seq 0 n).

Definition world_many_rooms : world :=
  {| chat_rooms := many_rooms 1001; room_messages := []; outbox := []; tasks := [] |}.



(** A registry in which connection "s1" was opened and bound to user
    "u1" under the nickname "ann". *)
Definition registry_bound : SocketioServer.registry :=
  SocketioServer.set_nickname "s1" (Some "ann") (Some "u1")
    (SocketioServer.connect "s1" SocketioServer.empty_registry).

(** A world with one room and one message in it. *)
Definition world_one_room : world :=
  {| chat_rooms := {[ "r1" := room_full ]};
     room_messages := [RoomMessage "r1" "A" "A" "hi" 2];
     outbox := []; tasks := [("r1", timedelta_hours 12)] |}.

(** ** The room API as a whole *)

(** One request to the room endpoints, the firing of an expiry task, or
    the startup reconciliation. *)
Inductive api_call :=
  | CreateRoom (room_data : RoomCreate) (now : Z) (inserted_id : string)
  | GetRoom (room_id : string) (now : Z)
  | JoinRoom (room_id user_id : string) (request_password : option string) (now : Z)
  | LeaveRoom (room_id user_id : string)
  | DeleteRoom (room_id user_id : string)
  | KickUser (room_id request_admin_id request_user_id : string) (now : Z)
  | TransferAdmin (room_id current_admin_id new_admin_id : string)
  | SaveRoomMessage (room_id request_user_id request_message : string) (now : Z)
  | TimerFired (room_id : string)
  | Startup (now : Z).

(** A handler run for its effect. *)
Definition void {A} (m : M A) : M unit := m ≫= λ _, mret tt.

Definition handle `{!Bson} (c : api_call) : M unit :=
  match c with
  | CreateRoom room_data now inserted_id => void (create_room room_data now inserted_id)
  | GetRoom room_id now => void (get_room room_id now)
  | JoinRoom room_id user_id pw now => void (join_room room_id user_id pw now)
  | LeaveRoom room_id user_id => void (leave_room room_id user_id)
  | DeleteRoom room_id user_id => void (delete_room room_id user_id)
  | KickUser room_id admin target now => void (kick_user room_id admin target now)
  | TransferAdmin room_id current new => void (transfer_admin room_id current new)
  | SaveRoomMessage room_id user_id message now =>
      void (save_room_message room_id user_id message now)
  | TimerFired room_id => schedule_room_deletion room_id
  | Startup now => startup_db_indexes now
  end.

(** The room a call is addressed to; the startup reconciliation is
    addressed to all of them. *)
Definition call_room (c : api_call) : option string :=
  match c with
  | CreateRoom _ _ room_id | GetRoom room_id _ | JoinRoom room_id _ _ _
  | LeaveRoom room_id _ | DeleteRoom room_id _ | KickUser room_id _ _ _
  | TransferAdmin room_id _ _ | SaveRoomMessage room_id _ _ _
  | TimerFired room_id => Some room_id
  | Startup _ => None
  end.

(** The id under which a call reaches [db.chat_rooms], if it does. *)
Definition call_id `{!Bson} (c : api_call) : option string :=
  match c with
  | GetRoom room_id _ | LeaveRoom room_id _ | DeleteRoom room_id _
  | KickUser room_id _ _ _ | TransferAdmin room_id _ _ => ObjectId room_id
  | CreateRoom _ _ room_id | JoinRoom room_id _ _ _ | TimerFired room_id => Some room_id
  | SaveRoomMessage _ _ _ _ | Startup _ => None
  end.

(** The driver assigns an [_id] that no stored room has. *)
Definition fresh_id (c : api_call) (w : world) : Prop :=
  match c with
  | CreateRoom _ _ inserted_id => chat_rooms w !! inserted_id = None
  | _ => True
  end.

(** The worlds that calls can lead to, one call after the other, from an
    empty database. *)
Inductive reachable `{!Bson} : world → Prop :=
  | reachable_empty : reachable empty_world
  | reachable_step (w : world) (c : api_call) :
      reachable w → fresh_id c w → reachable (run (handle c) w).2.

(** What every stored room satisfies when calls run one after the other:
    the admin is a member, no member is listed twice, a member has no ban
    entry, and nobody has more than one ban entry. *)
Definition room_inv (r : room) : Prop :=
  admin_id r ∈ members r ∧
  NoDup (members r) ∧
  (∀ u, u ∈ members r → user_bans u r = []) ∧
  (∀ u, (length (user_bans u r) ≤ 1)%nat).

Definition world_inv (w : world) : Prop :=
  ∀ room_id r, chat_rooms w !! room_id = Some r → room_inv r.

(** A room accepts a request password when it has no password, when its
    password is the empty string, or when the two are equal. *)
Definition password_accepts (r : room) (request_password : option string) : Prop :=
  password r = None ∨ password r = Some "" ∨ password r = request_password.

(** A room with [n] members has room for one more when it has no member
    limit, when the limit is 0, or when [n] is below the limit. *)
Definition has_capacity (r : room) (n : nat) : Prop :=
  max_members r = None ∨ max_members r = Some 0 ∨
  ∃ limit, max_members r = Some limit ∧ Z.of_nat n < limit.

(** The world in which the membership checks of a join run: the fetched
    room's ban entries of the user were pulled if there were any. *)
Definition after_bans (room_id user_id : string) (r : room) (w : world) : world :=
  if decide (user_bans user_id r = []) then w else bans_pulled room_id user_id w.



(** What a call can do to a stored room that it does not delete. *)
Inductive room_change : room → room → Prop :=
  | change_ban_pulled (user_id : string) (r : room) :
      room_change r (pull_ban user_id r)
  | change_joined (user_id : string) (r : room) :
      room_change r (add_to_set_member user_id (pull_ban user_id r))
  | change_left (user_id : string) (r : room) :
      admin_id r ≠ user_id → room_change r (pull_member user_id r)
  | change_kicked (target : string) (until : Z) (r : room) :
      target ∈ members r → target ≠ admin_id r →
      room_change r (push_ban (Ban target until) (pull_member target r))
  | change_admin (new : string) (r : room) :
      new ∈ members r → room_change r (with_admin_id new r)
  | change_backfilled (r : room) :
      expires_at r = None →
      room_change r (with_expires_at (created_at r + timedelta_hours 12) r).

(** A room as [create_room] stores it. *)
Definition fresh_room (r : room) : Prop :=
  admin_id r = creator_id r ∧ members r = [creator_id r] ∧ banned_users r = [] ∧
  expires_at r = Some (created_at r + timedelta_hours 12).

(** What a call can do to the world: to the room stored under the id
    [key] that it reaches, and to the messages that carry the text
    [room_id] that it was given. *)
Record outcome (key : option string) (room_id : string) (w w' : world) : Prop := {
  out_rooms :
    chat_rooms w' = chat_rooms w ∨
    ∃ _id, key = Some _id ∧
      (chat_rooms w' = delete _id (chat_rooms w) ∨
       (∃ r r', chat_rooms w !! _id = Some r ∧ room_change r r' ∧
                chat_rooms w' = <[_id := r']> (chat_rooms w)) ∨
       (∃ r', chat_rooms w !! _id = None ∧ fresh_room r' ∧
              chat_rooms w' = <[_id := r']> (chat_rooms w)));
  out_messages :
    ∀ other, other ≠ room_id → messages_of other w' = messages_of other w;
  out_tasks : tasks w `prefix_of` tasks w';
  out_outbox : outbox w `prefix_of` outbox w'
}.


(** Calls made one after the other. *)
Definition run_calls `{!Bson} (calls : list api_call) (w : world) : world :=
  foldl (λ w c, (run (handle c) w).2) w calls.

(** A creates an open room at time 0, stored under the id
    5f0a1b2c3d4e5f6a7b8c9d0e; B joins and writes, and A kicks B at
    time 10. *)
Definition history : list api_call :=
  [CreateRoom open_room_data 0 "5f0a1b2c3d4e5f6a7b8c9d0e";
   JoinRoom "5f0a1b2c3d4e5f6a7b8c9d0e" "B" None 5;
   SaveRoomMessage "5f0a1b2c3d4e5f6a7b8c9d0e" "B" "hello" 6;
   KickUser "5f0a1b2c3d4e5f6a7b8c9d0e" "A" "B" 10].

Definition world_history : world :=
  @run_calls hex_object_id history empty_world.



(** ** The presence handlers as a whole *)







(** ** Reasoning about computations *)

Lemma run_bind {A B} (m : M A) (f : A → M B) (w : world) :
  run (m ≫= f) w =
    match run m w with
    | (inl e, w') => (inl e, w')
    | (inr x, w') => run (f x) w'
    end.
Proof. reflexivity. Qed.

Lemma run_find_one {A} (room_id : string) (f : option room → M A) (w : world) :
  run (find_one room_id ≫= f) w = run (f (chat_rooms w !! room_id)) w.
Proof. reflexivity. Qed.

Lemma run_update_one (room_id : string) (update : room → room) (w : world) :
  run (update_one room_id update) w
  = (inr tt, set_chat_rooms (alter update room_id) w).
Proof. reflexivity. Qed.

Lemma run_ret {A} (x : A) (w : world) : run (mret x) w = (inr x, w).
Proof. reflexivity. Qed.

Lemma run_for_cons {A} (x : A) (l : list A) (body : A → M unit) (w : world) :
  run (for_ (x :: l) body) w =
    match run (body x) w with
    | (inl e, w') => (inl e, w')
    | (inr _, w') => run (for_ l body) w'
    end.
Proof. reflexivity. Qed.

Lemma world_eta (w : world) :
  {| chat_rooms := chat_rooms w; room_messages := room_messages w;
     outbox := outbox w; tasks := tasks w |} = w.
Proof. by destruct w. Qed.

Lemma filter_nil_intro {A} (P : A → Prop) `{!∀ x, Decision (P x)} (l : list A) :
  (∀ x, x ∈ l → ¬ P x) → filter P l = [].
Proof.
  intros Hnot. destruct (filter P l) as [|x l'] eqn:E; [done|].
  assert (x ∈ filter P l) as Hx by (rewrite E; left).
  apply list_elem_of_filter in Hx as [HP Hin]. by destruct (Hnot x Hin).
Qed.

(** What [delete_many({"room_id": room_id})] keeps. *)
Lemma filter_not_room (room_id : string) (l : list room_message) :
  filter (λ m, bool_decide (msg_room_id m = room_id) ≠ true) l
  = filter (λ m, msg_room_id m ≠ room_id) l.
Proof.
  apply list_filter_iff. intros m.
  rewrite bool_decide_eq_true. tauto.
Qed.

Lemma messages_of_removed (room_id : string) (w : world) :
  messages_of room_id
    (set_room_messages (filter (λ m, msg_room_id m ≠ room_id)) w) = [].
Proof.
  unfold messages_of; simpl.
  induction (room_messages w) as [|m l IH]; [done|].
  rewrite (filter_cons (λ m, msg_room_id m ≠ room_id)).
  destruct (decide (msg_room_id m ≠ room_id)) as [Hne|Heq]; [|done].
  rewrite filter_cons. by destruct (decide (msg_room_id m = room_id)).
Qed.

Lemma run_delete_room_and_messages {A} (room_id : string) (k : M A) (w : world) :
  run (delete_one room_id ;;
       delete_many (λ m, bool_decide (msg_room_id m = room_id)) ;; k) w
  = run k (room_removed room_id w).
Proof.
  unfold run, room_removed, mbind, M_bind, delete_one, delete_many; simpl.
  unfold set_room_messages; simpl. by rewrite filter_not_room.
Qed.

(** Running the database operations and emits that are left. *)
Ltac run_ops :=
  unfold run, mbind, M_bind, mret, M_ret, delete_one, delete_many, update_one,
    insert_one, sio_emit, create_task; simpl;
  unfold set_outbox, set_chat_rooms, set_room_messages, set_tasks; simpl.

(** A query by [ObjectId(room_id)], for a text that denotes an id and
    for one that does not. *)
Lemma run_by_id `{!Bson} {A B} (room_id _id : string) (op : string → M A)
    (k : A → M B) (w : world) :
  ObjectId room_id = Some _id →
  run (by_id room_id op ≫= k) w = run (op _id ≫= k) w.
Proof. intros Hid. unfold by_id, object_id. by rewrite Hid. Qed.

Lemma run_by_id_invalid `{!Bson} {A B} (room_id : string) (op : string → M A)
    (k : A → M B) (w : world) :
  ObjectId room_id = None →
  run (by_id room_id op ≫= k) w = (inl (HTTPError 500 "Internal Server Error"), w).
Proof. intros Hid. unfold by_id, object_id. by rewrite Hid. Qed.

Lemma run_delete_by_id_and_messages `{!Bson} {A} (room_id _id : string) (k : M A)
    (w : world) :
  ObjectId room_id = Some _id →
  run (by_id room_id delete_one ;;
       delete_many (λ m, bool_decide (msg_room_id m = room_id)) ;; k) w
  = run k (room_removed_as _id room_id w).
Proof.
  intros Hid. rewrite (run_by_id room_id _id) by done.
  unfold run, room_removed_as, mbind, M_bind, delete_one, delete_many; simpl.
  unfold set_room_messages; simpl. by rewrite filter_not_room.
Qed.

(** Deleting the messages that carry one text keeps the messages that
    carry another. *)
Lemma messages_of_other_text (room_id other : string) (l : list room_message) :
  other ≠ room_id →
  filter (λ m, msg_room_id m = other) (filter (λ m, msg_room_id m ≠ room_id) l)
  = filter (λ m, msg_room_id m = other) l.
Proof.
  intros Hne. rewrite list_filter_filter. apply list_filter_iff.
  intros m. split; [tauto|]. intros ->. by split.
Qed.

Lemma alter_stored (room_id : string) (f : room → room) (m : gmap string room) (r : room) :
  m !! room_id = Some r → alter f room_id m = <[room_id := f r]> m.
Proof.
  intros Hr. apply map_eq; intros i.
  destruct (decide (room_id = i)) as [<-|Hi].
  - by rewrite lookup_alter_eq, lookup_insert_eq, Hr.
  - by rewrite lookup_alter_ne, lookup_insert_ne.
Qed.

(** ** The expiry timer *)

Lemma schedule_room_deletion_absent (room_id : string) (w : world) :
  chat_rooms w !! room_id = None →
  run (schedule_room_deletion room_id) w = (inr tt, w).
Proof.
  intros Hnone. unfold schedule_room_deletion.
  rewrite run_bind. unfold find_one at 1, run at 1. by rewrite Hnone.
Qed.

Lemma schedule_room_deletion_present (room_id : string) (w : world) :
  is_Some (chat_rooms w !! room_id) →
  run (schedule_room_deletion room_id) w
  = (inr tt, set_outbox (λ o, o ++ expiry_events room_id) (room_removed room_id w)).
Proof.
  intros [r Hr]. unfold schedule_room_deletion.
  rewrite run_bind. unfold find_one at 1, run at 1. rewrite Hr.
  rewrite run_delete_room_and_messages.
  unfold run, mbind, M_bind, sio_emit, set_outbox; simpl.
  by rewrite <- app_assoc.
Qed.

Lemma expirations_app (room_id : string) (o1 o2 : list emit) :
  expirations room_id (o1 ++ o2)
  = (expirations room_id o1 + expirations room_id o2)%nat.
Proof. unfold expirations. by rewrite filter_app, length_app. Qed.

Lemma expirations_expiry_events (room_id room_id' : string) :
  expirations room_id (expiry_events room_id')
  = if decide (room_id' = room_id) then 1%nat else 0%nat.
Proof.
  unfold expirations, expiry_events.
  rewrite filter_cons; simpl.
  destruct (decide (room_id' = room_id)) as [->|Hne].
  - rewrite decide_True by done. by rewrite filter_cons, decide_False.
  - rewrite decide_False by congruence. by rewrite filter_cons, decide_False.
Qed.

(** Once a room is absent, no sequence of timers announces its expiry. *)
Lemma fire_timers_absent (room_id : string) (fired : list string) :
  ∀ w, chat_rooms w !! room_id = None →
    expirations room_id (outbox (snd (run (fire_timers fired) w)))
    = expirations room_id (outbox w).
Proof.
  unfold fire_timers.
  induction fired as [|id fired IH]; intros w Hnone; [done|].
  rewrite run_for_cons.
  destruct (chat_rooms w !! id) as [r|] eqn:Hid.
  - rewrite schedule_room_deletion_present by eauto.
    rewrite IH; simpl.
    + rewrite expirations_app, expirations_expiry_events.
      destruct (decide (id = room_id)) as [->|]; [congruence|lia].
    + destruct (decide (id = room_id)) as [->|Hne];
        [apply lookup_delete_eq | by rewrite lookup_delete_ne].
  - rewrite schedule_room_deletion_absent by done. by apply IH.
Qed.

Lemma fire_timers_at_most_once (room_id : string) (fired : list string) :
  ∀ w, (expirations room_id (outbox (snd (run (fire_timers fired) w)))
        ≤ expirations room_id (outbox w) + 1)%nat.
Proof.
  unfold fire_timers.
  induction fired as [|id fired IH]; intros w; [simpl; lia|].
  rewrite run_for_cons.
  destruct (chat_rooms w !! id) as [r|] eqn:Hid.
  - rewrite schedule_room_deletion_present by eauto.
    destruct (decide (id = room_id)) as [->|Hne].
    + pose proof (fire_timers_absent room_id fired
        (set_outbox (λ o, o ++ expiry_events room_id) (room_removed room_id w))) as Habs.
      unfold fire_timers in Habs. rewrite Habs by apply lookup_delete_eq.
      simpl. rewrite expirations_app, expirations_expiry_events.
      rewrite decide_True by done. lia.
    + etrans; [apply IH|]. simpl.
      rewrite expirations_app, expirations_expiry_events.
      rewrite decide_False by done. lia.
  - rewrite schedule_room_deletion_absent by done. apply IH.
Qed.

(** C1. When the expiry timer of a room fires, the task re-fetches the
    room. If the room is absent, nothing is deleted and nothing is
    emitted: the world is left as it was. If the room is present, the
    room and all its messages are deleted, then [room_expired] is emitted
    to the room channel and [room_list_updated(expired)] to everyone, in
    that order. Consequently, whatever timers fire and in whatever order,
    the expiry of a room is carried out at most once. *)
Theorem schedule_room_deletion_spec (room_id : string) (w : world) :
  (chat_rooms w !! room_id = None →
     run (schedule_room_deletion room_id) w = (inr tt, w)) ∧
  (is_Some (chat_rooms w !! room_id) →
     ∃ w', run (schedule_room_deletion room_id) w = (inr tt, w') ∧
       chat_rooms w' = delete room_id (chat_rooms w) ∧
       chat_rooms w' !! room_id = None ∧
       room_messages w' = filter (λ m, msg_room_id m ≠ room_id) (room_messages w) ∧
       messages_of room_id w' = [] ∧
       outbox w' = outbox w ++
         [Emit (room_expired room_id "This room has expired and been deleted.")
            (Some ("room_" +:+ room_id));
          Emit (room_list_updated "expired" room_id) None] ∧
       tasks w' = tasks w) ∧
  (∀ fired : list string,
     (expirations room_id (outbox (snd (run (fire_timers fired) w)))
      ≤ expirations room_id (outbox w) + 1)%nat).
Proof.
  split; [apply schedule_room_deletion_absent|]. split.
  - intros Hsome. eexists. split; [by apply schedule_room_deletion_present|].
    simpl. repeat split.
    + apply lookup_delete_eq.
    + apply (messages_of_removed room_id (set_chat_rooms (delete room_id) w)).
  - intros fired. apply fire_timers_at_most_once.
Qed.

(** ** Joining *)

Lemma pull_ban_idemp (user_id : string) (r : room) :
  pull_ban user_id (pull_ban user_id r) = pull_ban user_id r.
Proof.
  unfold pull_ban, with_banned_users; simpl. f_equal.
  rewrite list_filter_filter. apply list_filter_iff. tauto.
Qed.

Lemma bans_pulled_idemp (room_id user_id : string) (w : world) :
  bans_pulled room_id user_id (bans_pulled room_id user_id w)
  = bans_pulled room_id user_id w.
Proof.
  unfold bans_pulled, set_chat_rooms; simpl. f_equal.
  apply map_eq; intros i.
  destruct (decide (room_id = i)) as [->|Hne].
  - rewrite !lookup_alter_eq.
    destruct (chat_rooms w !! i); simpl; [|done].
    by rewrite pull_ban_idemp.
  - by rewrite !lookup_alter_ne.
Qed.

(** No running ban among the user's entries: the loop ends normally, and
    the user's entries, if any, were pulled. *)
Lemma ban_loop_expired (room_id user_id : string) (now : Z) (bans : list ban) :
  ∀ w, Forall (λ b, banned_until b ≤ now) (filter (λ b, ban_user_id b = user_id) bans) →
    run (for_ bans (join_room_ban room_id user_id now)) w
    = (inr tt, if decide (filter (λ b, ban_user_id b = user_id) bans = [])
               then w else bans_pulled room_id user_id w).
Proof.
  induction bans as [|b bans IH]; intros w Hall; [done|].
  rewrite run_for_cons. unfold join_room_ban at 1.
  rewrite filter_cons in Hall |- *.
  destruct (decide (ban_user_id b = user_id)) as [Hb|Hb].
  - apply Forall_cons in Hall as [Hexp Hall].
    rewrite (bool_decide_eq_true_2 _ Hb).
    rewrite bool_decide_eq_false_2 by lia.
    unfold update_one at 1, run at 1.
    change (set_chat_rooms (alter (pull_ban user_id) room_id) w)
      with (bans_pulled room_id user_id w).
    rewrite IH by done.
    destruct (decide (b :: _ = [])) as [?|_]; [done|].
    destruct (decide _); [done|]. by rewrite bans_pulled_idemp.
  - rewrite (bool_decide_eq_false_2 _ Hb). rewrite run_ret. by apply IH.
Qed.

(** A running ban after expired ones: the loop raises at the first running
    entry; the expired entries before it, if any, had the user's entries
    pulled already. *)
Lemma ban_loop_active (room_id user_id : string) (now : Z) (bans : list ban) :
  ∀ w expired b rest,
    filter (λ b, ban_user_id b = user_id) bans = expired ++ b :: rest →
    Forall (λ b, banned_until b ≤ now) expired →
    banned_until b > now →
    run (for_ bans (join_room_ban room_id user_id now)) w
    = (inl (HTTPError 403 (ban_detail (banned_until b) now)),
       if decide (expired = []) then w else bans_pulled room_id user_id w).
Proof.
  induction bans as [|x bans IH]; intros w expired b rest Hsplit Hexp Hact.
  { by destruct expired. }
  rewrite run_for_cons. unfold join_room_ban at 1.
  rewrite filter_cons in Hsplit.
  destruct (decide (ban_user_id x = user_id)) as [Hx|Hx].
  - rewrite (bool_decide_eq_true_2 _ Hx).
    destruct expired as [|y expired]; simpl in Hsplit;
      injection Hsplit as Hxy Hsplit; subst x.
    + by rewrite (bool_decide_eq_true_2 _ Hact).
    + apply Forall_cons in Hexp as [Hy Hexp].
      rewrite bool_decide_eq_false_2 by lia.
      unfold update_one at 1, run at 1.
      change (set_chat_rooms (alter (pull_ban user_id) room_id) w)
      with (bans_pulled room_id user_id w).
      rewrite (IH _ expired b rest) by done.
      destruct (decide (y :: _ = [])) as [?|_]; [done|].
      destruct (decide _); [done|]. by rewrite bans_pulled_idemp.
  - rewrite (bool_decide_eq_false_2 _ Hx). rewrite run_ret. by eapply IH.
Qed.

Lemma run_join_room (room_id user_id : string) (pw : option string) (now : Z)
    (w : world) (r : room) :
  chat_rooms w !! room_id = Some r →
  run (join_room room_id user_id pw now) w
  = match run (join_room_bans room_id user_id now r) w with
    | (inl e, w') => (inl e, w')
    | (inr _, w') => run (join_room_members room_id user_id pw r) w'
    end.
Proof.
  intros Hr. unfold join_room. rewrite run_bind.
  unfold find_one at 1, run at 1. rewrite Hr. by rewrite run_bind.
Qed.



Lemma run_join_room_members_member (room_id user_id : string) (pw : option string)
    (r : room) (w : world) :
  user_id ∈ members r →
  run (join_room_members room_id user_id pw r) w
  = (inr true, set_outbox (λ o, o ++ [member_joined room_id]) w).
Proof.
  intros Hin. unfold join_room_members.
  by rewrite (bool_decide_eq_true_2 _ Hin).
Qed.

(** C3. A join request by a user who is already in the member list of the
    room, and has no running ban there, succeeds whatever password it
    carries and whatever the capacity of the room is: neither check is
    evaluated. The member list of the stored room is unchanged, and so is
    the whole database when the user has no ban entry at all. *)
Theorem join_room_member_rejoin (room_id user_id : string) (pw : option string)
    (now : Z) (w : world) (r : room) :
  chat_rooms w !! room_id = Some r →
  user_id ∈ members r →
  Forall (λ b, banned_until b ≤ now) (user_bans user_id r) →
  ∃ w', run (join_room room_id user_id pw now) w = (inr true, w') ∧
    (∃ r', chat_rooms w' !! room_id = Some r' ∧ members r' = members r) ∧
    (user_bans user_id r = [] → chat_rooms w' = chat_rooms w) ∧
    room_messages w' = room_messages w ∧
    outbox w' = outbox w ++ [member_joined room_id].
Proof.
  intros Hr Hin Hall. eexists. split.
  - rewrite (run_join_room _ _ _ _ _ r Hr). unfold join_room_bans.
    rewrite ban_loop_expired by done.
    by apply run_join_room_members_member.
  - fold (user_bans user_id r).
    destruct (decide (user_bans user_id r = [])) as [Hnil|Hne]; simpl.
    + repeat split; eauto.
    + repeat split; [|done].
      exists (pull_ban user_id r). by rewrite lookup_alter_eq, Hr.
Qed.

(** B, a member of the full room protected by password "abc", joins
    again with a wrong password. *)
Lemma join_room_member_rejoin_witness :
  ∃ w', run (join_room "r1" "B" (Some "wrong") 10) world_full = (inr true, w') ∧
    (∃ r', chat_rooms w' !! "r1" = Some r' ∧ members r' = ["A"; "B"]).
Proof.
  destruct (join_room_member_rejoin "r1" "B" (Some "wrong") 10 world_full room_full)
    as (w' & Hrun & Hmem & _).
  - reflexivity.
  - set_solver.
  - vm_compute. constructor.
  - exists w'. split; [exact Hrun | exact Hmem].
Defined.

Lemma ban_loop_outbox (room_id user_id : string) (now : Z) (bans : list ban) :
  ∀ w, outbox (run (for_ bans (join_room_ban room_id user_id now)) w).2 = outbox w.
Proof.
  induction bans as [|b bans IH]; intros w; [done|].
  rewrite run_for_cons. unfold join_room_ban at 1.
  destruct (bool_decide (ban_user_id b = user_id)).
  - destruct (bool_decide (banned_until b > now)); [done|].
    unfold update_one at 1, run at 1. by rewrite IH.
  - rewrite run_ret. apply IH.
Qed.

Lemma join_room_members_outbox (room_id user_id : string) (pw : option string)
    (r : room) (w w' : world) (b : bool) :
  run (join_room_members room_id user_id pw r) w = (inr b, w') →
  outbox w' = outbox w ++ [member_joined room_id].
Proof.
  unfold join_room_members.
  destruct (bool_decide (user_id ∈ members r)); simpl.
  - intros [= _ <-]. done.
  - destruct (truthy_str (password r) && bool_decide (password r ≠ pw));
      [intros [=]|].
    destruct (truthy_int (max_members r)
              && bool_decide (default 0 (max_members r) ≤ Z.of_nat (length (members r))));
      [intros [=]|].
    intros [= _ <-]. done.
Qed.

(** C10. Every join request that succeeds ends with exactly one more
    emitted event, the [room_list_updated(member_joined)] broadcast to all
    clients. This includes the request of a user who already is a member
    and has no ban entry, which changes nothing in the database. *)
Theorem join_room_success_broadcast (room_id user_id : string) (pw : option string)
    (now : Z) (w : world) :
  (∀ b w', run (join_room room_id user_id pw now) w = (inr b, w') →
     outbox w' = outbox w ++ [Emit (room_list_updated "member_joined" room_id) None]) ∧
  (∀ r, chat_rooms w !! room_id = Some r → user_id ∈ members r →
     user_bans user_id r = [] →
     run (join_room room_id user_id pw now) w
     = (inr true,
        {| chat_rooms := chat_rooms w; room_messages := room_messages w;
           outbox := outbox w ++ [Emit (room_list_updated "member_joined" room_id) None];
           tasks := tasks w |})).
Proof.
  split.
  - intros b w' Hrun.
    destruct (chat_rooms w !! room_id) as [r|] eqn:Hr.
    + rewrite (run_join_room _ _ _ _ _ r Hr) in Hrun.
      pose proof (ban_loop_outbox room_id user_id now (banned_users r) w) as Hout.
      unfold join_room_bans in Hrun.
      destruct (run (for_ (banned_users r) (join_room_ban room_id user_id now)) w)
        as [[e|[]] w1]; [discriminate|].
      apply join_room_members_outbox in Hrun. simpl in Hout. by rewrite <- Hout.
    + unfold join_room in Hrun. rewrite run_bind in Hrun.
      unfold find_one at 1, run at 1 in Hrun. by rewrite Hr in Hrun.
  - intros r Hr Hin Hnil.
    rewrite (run_join_room _ _ _ _ _ r Hr). unfold join_room_bans.
    rewrite ban_loop_expired by (fold (user_bans user_id r); rewrite Hnil; constructor).
    fold (user_bans user_id r). rewrite decide_True by done.
    by apply run_join_room_members_member.
Qed.

Lemma join_room_success_broadcast_witness :
  outbox (run (join_room "r1" "B" None 10) world_full).2
  = [Emit (room_list_updated "member_joined" "r1") None]
  ∧ chat_rooms (run (join_room "r1" "B" None 10) world_full).2 = chat_rooms world_full.
Proof.
  pose proof (proj2 (join_room_success_broadcast "r1" "B" None 10 world_full)
                room_full) as Hrun.
  rewrite Hrun.
  - split; reflexivity.
  - reflexivity.
  - set_solver.
  - reflexivity.
Defined.

(** ** Kicking *)

Lemma filter_authored (room_id user_id : string) (l : list room_message) :
  filter (λ m, (bool_decide (msg_room_id m = room_id)
                && bool_decide (msg_user_id m = user_id)) = true) l
  = filter (authored room_id user_id) l.
Proof.
  apply list_filter_iff. intros m. unfold authored.
  by rewrite andb_true_iff, !bool_decide_eq_true.
Qed.

Lemma filter_not_authored (room_id user_id : string) (l : list room_message) :
  filter (λ m, (bool_decide (msg_room_id m = room_id)
                && bool_decide (msg_user_id m = user_id)) ≠ true) l
  = filter (λ m, ¬ authored room_id user_id m) l.
Proof.
  apply list_filter_iff. intros m. unfold authored.
  by rewrite andb_true_iff, !bool_decide_eq_true.
Qed.


Lemma filter_authored_other_text (room_id other user_id : string)
    (l : list room_message) :
  other ≠ room_id →
  filter (authored other user_id) (filter (λ m, ¬ authored room_id user_id m) l)
  = filter (authored other user_id) l.
Proof.
  intros Hne. rewrite list_filter_filter. apply list_filter_iff.
  intros m. unfold authored. split; [tauto|].
  intros [Hroom Huser]. split; [done|]. intros [Hroom' _]. congruence.
Qed.

(** The runs of [kick_user], [leave_room], [delete_room] and [get_room]
    on a stored room, case by case; [_id] is the id that the text
    [room_id] of the path denotes. *)
Lemma run_kick_user_not_admin `{!Bson} (room_id _id admin target : string) (now : Z)
    (w : world) (r : room) :
  ObjectId room_id = Some _id → chat_rooms w !! _id = Some r →
  admin_id r ≠ admin →
  run (kick_user room_id admin target now) w
  = (inl (HTTPError 403 "Only admin can kick users"), w).
Proof.
  intros Hid Hr Hne. unfold kick_user.
  rewrite (run_by_id room_id _id) by done. rewrite run_find_one, Hr.
  by rewrite (bool_decide_eq_true_2 _ Hne).
Qed.

Lemma run_kick_user_not_member `{!Bson} (room_id _id admin target : string) (now : Z)
    (w : world) (r : room) :
  ObjectId room_id = Some _id → chat_rooms w !! _id = Some r →
  admin_id r = admin → target ∉ members r →
  run (kick_user room_id admin target now) w
  = (inl (HTTPError 400 "User not in room"), w).
Proof.
  intros Hid Hr Hadm Hnin. unfold kick_user.
  rewrite (run_by_id room_id _id) by done. rewrite run_find_one, Hr.
  rewrite bool_decide_eq_false_2 by tauto.
  by rewrite (bool_decide_eq_true_2 _ Hnin).
Qed.

Lemma run_kick_user_self `{!Bson} (room_id _id admin target : string) (now : Z)
    (w : world) (r : room) :
  ObjectId room_id = Some _id → chat_rooms w !! _id = Some r →
  admin_id r = admin → target ∈ members r → target = admin →
  run (kick_user room_id admin target now) w
  = (inl (HTTPError 400 "Cannot kick yourself"), w).
Proof.
  intros Hid Hr Hadm Hin Heq. unfold kick_user.
  rewrite (run_by_id room_id _id) by done. rewrite run_find_one, Hr.
  rewrite bool_decide_eq_false_2 by tauto.
  rewrite bool_decide_eq_false_2 by tauto.
  by rewrite (bool_decide_eq_true_2 _ Heq).
Qed.

Lemma run_kick_user_done `{!Bson} (room_id _id admin target : string) (now : Z)
    (w : world) (r : room) :
  ObjectId room_id = Some _id → chat_rooms w !! _id = Some r →
  admin_id r = admin → target ∈ members r → target ≠ admin →
  run (kick_user room_id admin target now) w
  = (inr {| kick_success := true;
            messages_deleted :=
              length (filter (authored room_id target) (room_messages w));
            kick_banned_until := now + 300000000 |},
     {| chat_rooms := <[_id := kicked_room target (now + 300000000) r]> (chat_rooms w);
        room_messages := filter (λ m, ¬ authored room_id target m) (room_messages w);
        outbox := outbox w ++
          [Emit (user_kicked room_id target (name r) (now + 300000000))
             (Some ("room_" +:+ room_id));
           Emit (room_list_updated "member_kicked" room_id) None;
           Emit (messages_cleared room_id target) (Some ("room_" +:+ room_id))];
        tasks := tasks w |}).
Proof.
  intros Hid Hr Hadm Hin Hne. unfold kick_user.
  rewrite (run_by_id room_id _id) by done. rewrite run_find_one, Hr.
  rewrite bool_decide_eq_false_2 by tauto.
  rewrite bool_decide_eq_false_2 by tauto.
  rewrite (bool_decide_eq_false_2 _ Hne).
  unfold by_id, object_id. rewrite Hid.
  run_ops. rewrite filter_authored, filter_not_authored.
  rewrite (alter_stored _id _ _ r Hr), <- !app_assoc. reflexivity.
Qed.

Lemma run_leave_room_admin `{!Bson} (room_id _id user_id : string) (w : world) (r : room) :
  ObjectId room_id = Some _id → chat_rooms w !! _id = Some r →
  admin_id r = user_id →
  run (leave_room room_id user_id) w
  = (inr {| leave_success := true; room_deleted_flag := true |},
     {| chat_rooms := delete _id (chat_rooms w);
        room_messages := filter (λ m, msg_room_id m ≠ room_id) (room_messages w);
        outbox := outbox w ++
          [Emit (room_deleted room_id "Room has been deleted because the owner left.")
             (Some ("room_" +:+ room_id));
           Emit (room_list_updated "deleted" room_id) None];
        tasks := tasks w |}).
Proof.
  intros Hid Hr Hadm. unfold leave_room.
  rewrite (run_by_id room_id _id) by done.
  rewrite run_find_one, Hr, (bool_decide_eq_true_2 _ Hadm).
  rewrite (run_delete_by_id_and_messages room_id _id) by done.
  unfold room_removed_as. run_ops. by rewrite <- app_assoc.
Qed.

Lemma run_leave_room_member `{!Bson} (room_id _id user_id : string) (w : world) (r : room) :
  ObjectId room_id = Some _id → chat_rooms w !! _id = Some r →
  admin_id r ≠ user_id →
  run (leave_room room_id user_id) w
  = (inr {| leave_success := true; room_deleted_flag := false |},
     {| chat_rooms := <[_id := left_room user_id r]> (chat_rooms w);
        room_messages := room_messages w;
        outbox := outbox w ++ [Emit (room_list_updated "member_left" room_id) None];
        tasks := tasks w |}).
Proof.
  intros Hid Hr Hne. unfold leave_room.
  rewrite (run_by_id room_id _id) by done.
  rewrite run_find_one, Hr, (bool_decide_eq_false_2 _ Hne).
  rewrite (run_by_id room_id _id) by done.
  run_ops. by rewrite (alter_stored _id _ _ r Hr).
Qed.

Lemma run_delete_room_refused `{!Bson} (room_id _id user_id : string) (w : world)
    (r : room) :
  ObjectId room_id = Some _id → chat_rooms w !! _id = Some r →
  admin_id r ≠ user_id →
  run (delete_room room_id user_id) w
  = (inl (HTTPError 403 "Only admin can delete room"), w).
Proof.
  intros Hid Hr Hne. unfold delete_room.
  rewrite (run_by_id room_id _id) by done.
  by rewrite run_find_one, Hr, (bool_decide_eq_true_2 _ Hne).
Qed.

Lemma run_delete_room_admin `{!Bson} (room_id _id user_id : string) (w : world)
    (r : room) :
  ObjectId room_id = Some _id → chat_rooms w !! _id = Some r →
  admin_id r = user_id →
  run (delete_room room_id user_id) w
  = (inr true,
     {| chat_rooms := delete _id (chat_rooms w);
        room_messages := filter (λ m, msg_room_id m ≠ room_id) (room_messages w);
        outbox := outbox w ++
          [Emit (room_deleted room_id "Room has been deleted by admin.")
             (Some ("room_" +:+ room_id))];
        tasks := tasks w |}).
Proof.
  intros Hid Hr Hadm. unfold delete_room.
  rewrite (run_by_id room_id _id) by done.
  rewrite run_find_one, Hr. rewrite bool_decide_eq_false_2 by tauto.
  by rewrite (run_delete_by_id_and_messages room_id _id) by done.
Qed.

Lemma run_get_room_absent `{!Bson} (room_id _id : string) (now : Z) (w : world) :
  ObjectId room_id = Some _id → chat_rooms w !! _id = None →
  run (get_room room_id now) w = (inl (HTTPError 404 "Room not found"), w).
Proof.
  intros Hid Hnone. unfold get_room.
  rewrite (run_by_id room_id _id) by done. by rewrite run_find_one, Hnone.
Qed.

Lemma run_get_room_expired `{!Bson} (room_id _id : string) (now e : Z) (w : world)
    (r : room) :
  ObjectId room_id = Some _id → chat_rooms w !! _id = Some r →
  expires_at r = Some e → e ≤ now →
  run (get_room room_id now) w
  = (inl (HTTPError 410 "Room has expired"),
     {| chat_rooms := delete _id (chat_rooms w);
        room_messages := filter (λ m, msg_room_id m ≠ room_id) (room_messages w);
        outbox := outbox w; tasks := tasks w |}).
Proof.
  intros Hid Hr He Hle. unfold get_room.
  rewrite (run_by_id room_id _id) by done.
  rewrite run_find_one, Hr, He, (bool_decide_eq_true_2 _ Hle).
  by rewrite (run_delete_by_id_and_messages room_id _id) by done.
Qed.

Lemma run_get_room_live `{!Bson} (room_id _id : string) (now : Z) (w : world)
    (r : room) :
  ObjectId room_id = Some _id → chat_rooms w !! _id = Some r →
  (∀ e, expires_at r = Some e → now < e) →
  run (get_room room_id now) w = (inr r, w).
Proof.
  intros Hid Hr Hlive. unfold get_room.
  rewrite (run_by_id room_id _id) by done. rewrite run_find_one, Hr.
  destruct (expires_at r) as [e|]; [|done].
  specialize (Hlive e eq_refl). by rewrite bool_decide_eq_false_2 by lia.
Qed.

(** C4. A kick by the admin of another member of the room removes the
    target from the member list of the room that [ObjectId(room_id)]
    finds and appends a ban entry of the target that runs until exactly
    five minutes after the kick, and the response carries that expiry;
    but the messages are deleted under the text [room_id] of the path.
    When the path spells the id otherwise than the messages of the room
    carry it, the target is banned and every message the target wrote in
    the room is still stored; the count in the response leaves them out.
    The specification wants every message of the target in that room
    deleted. *)
Theorem kick_user_keeps_messages `{!Bson} (room_id _id admin target : string)
    (now : Z) (w : world) (r : room) :
  ObjectId room_id = Some _id → room_id ≠ _id →
  chat_rooms w !! _id = Some r →
  admin_id r = admin → target ∈ members r → target ≠ admin →
  let r' :=
    {| name := name r; description := description r; is_public := is_public r;
       creator_id := creator_id r; admin_id := admin_id r;
       members := filter (λ m, m ≠ target) (members r);
       password := password r; max_members := max_members r;
       created_at := created_at r; expires_at := expires_at r;
       banned_users := banned_users r ++ [Ban target (now + 300000000)] |} in
  let w' :=
    {| chat_rooms := <[_id := r']> (chat_rooms w);
       room_messages :=
         filter (λ m, ¬ (msg_room_id m = room_id ∧ msg_user_id m = target))
           (room_messages w);
       outbox := outbox w ++
         [Emit (user_kicked room_id target (name r) (now + 300000000))
            (Some ("room_" +:+ room_id));
          Emit (room_list_updated "member_kicked" room_id) None;
          Emit (messages_cleared room_id target) (Some ("room_" +:+ room_id))];
       tasks := tasks w |} in
  run (kick_user room_id admin target now) w
  = (inr {| kick_success := true;
            messages_deleted :=
              length (filter (λ m, msg_room_id m = room_id ∧ msg_user_id m = target)
                        (room_messages w));
            kick_banned_until := now + 300000000 |}, w') ∧
  filter (λ m, msg_room_id m = _id ∧ msg_user_id m = target) (room_messages w')
  = filter (λ m, msg_room_id m = _id ∧ msg_user_id m = target) (room_messages w).
Proof.
  intros Hid Hne Hr Hadm Hin Htarget r' w'. split.
  - by rewrite (run_kick_user_done room_id _id admin target now w r).
  - apply (filter_authored_other_text room_id _id target (room_messages w)).
    congruence.
Qed.

(** The room is stored under 5f0a1b2c3d4e5f6a7b8c9d0e and the kick is
    sent to 5F0A1B2C3D4E5F6A7B8C9D0E: B is banned and removed, no message
    is deleted, and B's message is still stored. *)
Lemma kick_user_keeps_messages_witness :
  ∃ w', @run KickResponse
          (@kick_user hex_object_id "5F0A1B2C3D4E5F6A7B8C9D0E" "A" "B" 100) world_hex
        = (inr {| kick_success := true; messages_deleted := 0;
                  kick_banned_until := 300000100 |}, w') ∧
    (members <$> chat_rooms w' !! "5f0a1b2c3d4e5f6a7b8c9d0e") = Some ["A"] ∧
    (banned_users <$> chat_rooms w' !! "5f0a1b2c3d4e5f6a7b8c9d0e")
    = Some [Ban "B" 300000100] ∧
    filter (λ m, msg_room_id m = "5f0a1b2c3d4e5f6a7b8c9d0e" ∧ msg_user_id m = "B")
      (room_messages w')
    = [RoomMessage "5f0a1b2c3d4e5f6a7b8c9d0e" "B" "B" "hello" 1].
Proof.
  destruct (@kick_user_keeps_messages hex_object_id
              "5F0A1B2C3D4E5F6A7B8C9D0E" "5f0a1b2c3d4e5f6a7b8c9d0e" "A" "B" 100
              world_hex room_full) as [Hrun Hkept].
  - reflexivity.
  - discriminate.
  - reflexivity.
  - reflexivity.
  - set_solver.
  - discriminate.
  - eexists. split; [exact Hrun|]. split; [reflexivity|]. split; [reflexivity|].
    rewrite Hkept. reflexivity.
Defined.

(** ** Leaving, deleting and fetching *)

(** C5. When the admin of a room leaves it, or deletes it, the room that
    [ObjectId(room_id)] finds is deleted, the response of the leave says
    so, and a fetch under the same path answers 404 afterwards; but the
    messages are deleted under the text [room_id] of the path. When the
    path spells the id otherwise than the messages of the room carry it,
    the room is gone and all its messages are still stored. The
    specification wants no message of the room left. *)
Theorem leave_and_delete_keep_messages `{!Bson} (room_id _id user_id : string)
    (w : world) (r : room) :
  ObjectId room_id = Some _id → room_id ≠ _id →
  chat_rooms w !! _id = Some r → admin_id r = user_id →
  let gone events :=
    {| chat_rooms := delete _id (chat_rooms w);
       room_messages := filter (λ m, msg_room_id m ≠ room_id) (room_messages w);
       outbox := outbox w ++ events; tasks := tasks w |} in
  let left :=
    gone [Emit (room_deleted room_id "Room has been deleted because the owner left.")
            (Some ("room_" +:+ room_id));
          Emit (room_list_updated "deleted" room_id) None] in
  let deleted :=
    gone [Emit (room_deleted room_id "Room has been deleted by admin.")
            (Some ("room_" +:+ room_id))] in
  run (leave_room room_id user_id) w
  = (inr {| leave_success := true; room_deleted_flag := true |}, left) ∧
  run (delete_room room_id user_id) w = (inr true, deleted) ∧
  (∀ now, run (get_room room_id now) left
          = (inl (HTTPError 404 "Room not found"), left)) ∧
  (∀ now, run (get_room room_id now) deleted
          = (inl (HTTPError 404 "Room not found"), deleted)) ∧
  messages_of _id left = messages_of _id w ∧
  messages_of _id deleted = messages_of _id w.
Proof.
  intros Hid Hne Hr Hadm gone left deleted.
  split; [by apply (run_leave_room_admin room_id _id user_id w r)|].
  split; [by apply (run_delete_room_admin room_id _id user_id w r)|].
  split; [|split; [|split]].
  - intros now. apply (run_get_room_absent room_id _id); [done|].
    apply lookup_delete_eq.
  - intros now. apply (run_get_room_absent room_id _id); [done|].
    apply lookup_delete_eq.
  - apply messages_of_other_text. congruence.
  - apply messages_of_other_text. congruence.
Qed.

(** The room is stored under 5f0a1b2c3d4e5f6a7b8c9d0e and its admin A
    leaves it, or deletes it, under 5F0A1B2C3D4E5F6A7B8C9D0E: the room is
    gone and its two messages are still stored. *)
Lemma leave_and_delete_keep_messages_witness :
  (∃ w', @run LeaveResponse
           (@leave_room hex_object_id "5F0A1B2C3D4E5F6A7B8C9D0E" "A") world_hex
         = (inr {| leave_success := true; room_deleted_flag := true |}, w') ∧
     chat_rooms w' !! "5f0a1b2c3d4e5f6a7b8c9d0e" = None ∧
     messages_of "5f0a1b2c3d4e5f6a7b8c9d0e" w' = room_messages world_hex) ∧
  (∃ w', @run bool
           (@delete_room hex_object_id "5F0A1B2C3D4E5F6A7B8C9D0E" "A") world_hex
         = (inr true, w') ∧
     chat_rooms w' !! "5f0a1b2c3d4e5f6a7b8c9d0e" = None ∧
     messages_of "5f0a1b2c3d4e5f6a7b8c9d0e" w' = room_messages world_hex).
Proof.
  destruct (@leave_and_delete_keep_messages hex_object_id
              "5F0A1B2C3D4E5F6A7B8C9D0E" "5f0a1b2c3d4e5f6a7b8c9d0e" "A"
              world_hex room_full)
    as (Hleave & Hdelete & _ & _ & Hleft & Hdeleted).
  - reflexivity.
  - discriminate.
  - reflexivity.
  - reflexivity.
  - split; eexists.
    + split; [exact Hleave|]. split; [reflexivity|]. rewrite Hleft. reflexivity.
    + split; [exact Hdelete|]. split; [reflexivity|]. rewrite Hdeleted. reflexivity.
Defined.

(** C9. Fetching a room whose stored [expires_at] is at or before the
    current time does not return it: the fetch deletes the room that
    [ObjectId(room_id)] finds and fails with 410 "Room has expired"; but
    the messages are deleted under the text [room_id] of the path. When
    the path spells the id otherwise than the messages of the room carry
    it, the room is gone and all its messages are still stored. The
    specification wants the fetch to delete all messages of the room. *)
Theorem get_room_expired_keeps_messages `{!Bson} (room_id _id : string) (now e : Z)
    (w : world) (r : room) :
  ObjectId room_id = Some _id → room_id ≠ _id →
  chat_rooms w !! _id = Some r → expires_at r = Some e → e ≤ now →
  let w' :=
    {| chat_rooms := delete _id (chat_rooms w);
       room_messages := filter (λ m, msg_room_id m ≠ room_id) (room_messages w);
       outbox := outbox w; tasks := tasks w |} in
  run (get_room room_id now) w = (inl (HTTPError 410 "Room has expired"), w') ∧
  chat_rooms w' !! _id = None ∧
  messages_of _id w' = messages_of _id w.
Proof.
  intros Hid Hne Hr He Hle w'.
  split; [by apply (run_get_room_expired room_id _id now e w r)|].
  split; [apply lookup_delete_eq|].
  apply messages_of_other_text. congruence.
Qed.

(** The room stored under 5f0a1b2c3d4e5f6a7b8c9d0e expires twelve hours
    after time 0; a fetch under 5F0A1B2C3D4E5F6A7B8C9D0E at that instant
    deletes the room and leaves its two messages stored. *)
Lemma get_room_expired_keeps_messages_witness :
  ∃ w', @run room (@get_room hex_object_id "5F0A1B2C3D4E5F6A7B8C9D0E" 43200000000)
          world_hex
        = (inl (HTTPError 410 "Room has expired"), w') ∧
    chat_rooms w' !! "5f0a1b2c3d4e5f6a7b8c9d0e" = None ∧
    messages_of "5f0a1b2c3d4e5f6a7b8c9d0e" w' = room_messages world_hex.
Proof.
  destruct (@get_room_expired_keeps_messages hex_object_id
              "5F0A1B2C3D4E5F6A7B8C9D0E" "5f0a1b2c3d4e5f6a7b8c9d0e"
              43200000000 43200000000 world_hex room_full)
    as (Hrun & Hgone & Hkept).
  - reflexivity.
  - discriminate.
  - reflexivity.
  - reflexivity.
  - lia.
  - eexists. split; [exact Hrun|]. split; [exact Hgone|].
    rewrite Hkept. reflexivity.
Defined.

(** ** Startup reconciliation *)

Lemma run_for_app {A} (l1 l2 : list A) (body : A → M unit) (w : world) :
  run (for_ (l1 ++ l2) body) w =
    match run (for_ l1 body) w with
    | (inl e, w') => (inl e, w')
    | (inr _, w') => run (for_ l2 body) w'
    end.
Proof.
  revert w. induction l1 as [|x l1 IH]; intros w; [done|].
  simpl app. rewrite !run_for_cons.
  destruct (run (body x) w) as [[e|[]] w1]; [done|]. apply IH.
Qed.

Lemma run_startup_room (now : Z) (listed : string * room) (w : world) :
  run (startup_room now listed) w = (inr tt, startup_room_done now listed w).
Proof.
  destruct listed as [room_id r].
  unfold startup_room, startup_room_done, effective_expiry; simpl.
  destruct (expires_at r) as [e|]; simpl.
  - rewrite run_bind, run_ret.
    destruct (bool_decide (e ≤ now)); [|done].
    by rewrite run_delete_room_and_messages.
  - rewrite run_bind. rewrite run_bind.
    rewrite run_update_one, run_ret.
    change (timedelta_hours 12) with 43200000000.
    destruct (bool_decide (created_at r + 43200000000 ≤ now)); [|done].
    by rewrite run_delete_room_and_messages.
Qed.

Lemma run_startup_loop (now : Z) (l : list (string * room)) :
  ∀ w, run (for_ l (startup_room now)) w
       = (inr tt, foldl (λ w x, startup_room_done now x w) w l).
Proof.
  induction l as [|x l IH]; intros w; [done|].
  rewrite run_for_cons, run_startup_room. apply IH.
Qed.

(** What the reconciliation of one room does to the tasks, to the other
    rooms and to itself. *)
Lemma startup_room_done_tasks (now : Z) (x : string * room) (w : world) :
  tasks (startup_room_done now x w) = tasks w ++ option_list (startup_task now x).
Proof.
  unfold startup_room_done, startup_task.
  destruct (bool_decide (effective_expiry x.2 ≤ now));
    destruct (expires_at x.2); simpl; by rewrite ?app_nil_r.
Qed.

Lemma startup_room_done_other (now : Z) (x : string * room) (w : world) (room_id : string) :
  room_id ≠ x.1 →
  chat_rooms (startup_room_done now x w) !! room_id = chat_rooms w !! room_id ∧
  messages_of room_id (startup_room_done now x w) = messages_of room_id w.
Proof.
  intros Hne. unfold startup_room_done.
  assert (∀ w0, messages_of room_id (room_removed x.1 w0) = messages_of room_id w0) as Hmsgs.
  { intros w0. unfold messages_of; simpl. rewrite list_filter_filter.
    apply list_filter_iff. intros m. split; [tauto|]. intros ->. split; done. }
  destruct (bool_decide (effective_expiry x.2 ≤ now));
    destruct (expires_at x.2); rewrite ?Hmsgs; simpl;
    rewrite ?lookup_delete_ne, ?lookup_alter_ne by done; done.
Qed.

Lemma startup_room_done_self (now : Z) (room_id : string) (r : room) (w : world) :
  chat_rooms w !! room_id = Some r →
  (effective_expiry r ≤ now →
     chat_rooms (startup_room_done now (room_id, r) w) !! room_id = None ∧
     messages_of room_id (startup_room_done now (room_id, r) w) = []) ∧
  (now < effective_expiry r →
     chat_rooms (startup_room_done now (room_id, r) w) !! room_id
     = Some (with_expires_at (effective_expiry r) r)).
Proof.
  intros Hr. unfold startup_room_done; simpl. split.
  - intros Hle. rewrite (bool_decide_eq_true_2 _ Hle). split.
    + apply lookup_delete_eq.
    + apply messages_of_removed.
  - intros Hlt. rewrite bool_decide_eq_false_2 by lia.
    unfold effective_expiry. destruct (expires_at r) as [e|] eqn:He; simpl.
    + rewrite Hr. f_equal. destruct r; simpl in *. by rewrite He.
    + by rewrite lookup_alter_eq, Hr.
Qed.

Lemma startup_loop_tasks (now : Z) (l : list (string * room)) :
  ∀ w, tasks (foldl (λ w x, startup_room_done now x w) w l)
       = tasks w ++ omap (startup_task now) l.
Proof.
  induction l as [|x l IH]; intros w; simpl; [by rewrite app_nil_r|].
  rewrite IH, startup_room_done_tasks, <- app_assoc. f_equal.
  by destruct (startup_task now x).
Qed.

Lemma startup_loop_other (now : Z) (l : list (string * room)) (room_id : string) :
  ∀ w, room_id ∉ l.*1 →
    chat_rooms (foldl (λ w x, startup_room_done now x w) w l) !! room_id
    = chat_rooms w !! room_id ∧
    messages_of room_id (foldl (λ w x, startup_room_done now x w) w l)
    = messages_of room_id w.
Proof.
  induction l as [|x l IH]; intros w Hnin; simpl; [done|].
  rewrite fmap_cons, not_elem_of_cons in Hnin. destruct Hnin as [Hne Hnin].
  destruct (IH (startup_room_done now x w) Hnin) as [-> ->].
  by apply startup_room_done_other.
Qed.

Lemma startup_loop_self (now : Z) (l : list (string * room)) (room_id : string) (r : room) :
  ∀ w, NoDup l.*1 → (room_id, r) ∈ l → chat_rooms w !! room_id = Some r →
    let w' := foldl (λ w x, startup_room_done now x w) w l in
    (effective_expiry r ≤ now →
       chat_rooms w' !! room_id = None ∧ messages_of room_id w' = []) ∧
    (now < effective_expiry r →
       chat_rooms w' !! room_id = Some (with_expires_at (effective_expiry r) r)).
Proof.
  induction l as [|x l IH]; intros w Hnd Hin Hr; simpl.
  { by apply elem_of_nil in Hin. }
  rewrite fmap_cons in Hnd. apply NoDup_cons in Hnd as [Hx Hnd].
  apply elem_of_cons in Hin as [<-|Hin].
  - destruct (startup_loop_other now l room_id
                (startup_room_done now (room_id, r) w) Hx) as [-> ->].
    by apply startup_room_done_self.
  - assert (room_id ≠ x.1) as Hne.
    { intros ->. apply Hx. apply list_elem_of_fmap. by exists (x.1, r). }
    apply IH; [done..|].
    by rewrite (proj1 (startup_room_done_other now x w room_id Hne)).
Qed.

Lemma listed_rooms_spec (w : world) :
  NoDup (listed_rooms w).*1 ∧
  (∀ room_id r, (room_id, r) ∈ listed_rooms w → chat_rooms w !! room_id = Some r) ∧
  ((size (chat_rooms w) ≤ 1000)%nat →
     ∀ room_id r, chat_rooms w !! room_id = Some r → (room_id, r) ∈ listed_rooms w).
Proof.
  unfold listed_rooms. split; [|split].
  - rewrite fmap_take. eapply sublist_NoDup; [|apply sublist_take].
    apply NoDup_fst_map_to_list.
  - intros room_id r Hin. apply elem_of_map_to_list.
    eapply elem_of_sublist; [exact Hin | apply sublist_take].
  - intros Hsize room_id r Hr.
    rewrite take_ge by (by rewrite length_map_to_list).
    by apply elem_of_map_to_list.
Qed.

Lemma run_startup_db_indexes (now : Z) (w : world) :
  run (startup_db_indexes now) w
  = (inr tt, foldl (λ w x, startup_room_done now x w) w (listed_rooms w)).
Proof.
  unfold startup_db_indexes. rewrite run_bind.
  unfold find_to_list at 1, run at 1. fold (listed_rooms w).
  apply run_startup_loop.
Qed.

(** A task that the reconciliation creates is the task of a listed room. *)
Lemma startup_task_listed (now : Z) (l : list (string * room)) (room_id : string) (e : Z) :
  (room_id, e) ∈ omap (startup_task now) l → room_id ∈ l.*1.
Proof.
  intros Hin. apply list_elem_of_omap in Hin as ([room_id' r'] & Hin & Htask).
  unfold startup_task in Htask; simpl in Htask.
  destruct (bool_decide (effective_expiry r' ≤ now)); [done|].
  injection Htask as -> _.
  apply list_elem_of_fmap. by exists (room_id, r').
Qed.

(** With more than 1000 rooms stored, one of them is not listed. *)
Lemma unlisted_room (w : world) :
  (1000 < size (chat_rooms w))%nat →
  ∃ room_id r, chat_rooms w !! room_id = Some r ∧ room_id ∉ (listed_rooms w).*1.
Proof.
  intros Hsize. unfold listed_rooms.
  pose proof (NoDup_fst_map_to_list (chat_rooms w)) as Hnd.
  rewrite <- (take_drop 1000 (map_to_list (chat_rooms w))) in Hnd.
  rewrite fmap_app in Hnd. apply NoDup_app in Hnd as (_ & Hdisj & _).
  destruct (drop 1000 (map_to_list (chat_rooms w))) as [|[room_id r] rest] eqn:Hdrop.
  { apply (f_equal length) in Hdrop. rewrite length_drop, length_map_to_list in Hdrop.
    simpl in Hdrop. lia. }
  exists room_id, r. split.
  - apply elem_of_map_to_list.
    rewrite <- (take_drop 1000 (map_to_list (chat_rooms w))), Hdrop.
    apply elem_of_app. right. left.
  - intros Hin. apply (Hdisj room_id Hin). rewrite fmap_cons. left.
Qed.

(** C6. The startup reconciliation lists the stored rooms with a limit
    of 1000. When more rooms than that are stored, some stored room is
    left exactly as it was: it stays stored whatever its expiry is, it
    gets no [expires_at] if it had none, its messages stay, and no
    deletion task is created for it. The specification wants every
    persisted room reconciled. *)
Theorem startup_db_indexes_skips_rooms (now : Z) (w : world) :
  (1000 < size (chat_rooms w))%nat →
  let w' := (run (startup_db_indexes now) w).2 in
  ∃ room_id r,
    chat_rooms w !! room_id = Some r ∧
    chat_rooms w' !! room_id = Some r ∧
    messages_of room_id w' = messages_of room_id w ∧
    (∀ e, (room_id, e) ∈ tasks w' → (room_id, e) ∈ tasks w).
Proof.
  intros Hsize w'.
  destruct (unlisted_room w Hsize) as (room_id & r & Hr & Hnin).
  exists room_id, r. subst w'. rewrite run_startup_db_indexes; simpl.
  destruct (startup_loop_other now (listed_rooms w) room_id w Hnin) as [Hsame Hmsgs].
  split; [done|]. split; [by rewrite Hsame|]. split; [done|].
  intros e. rewrite startup_loop_tasks, elem_of_app. intros [Hold|Hnew]; [done|].
  destruct Hnin. by apply (startup_task_listed now _ _ e).
Qed.

Lemma many_rooms_expired (n : nat) (room_id : string) (r : room) :
  many_rooms n !! room_id = Some r → r = expired_room.
Proof.
  unfold many_rooms. intros Hr. apply elem_of_list_to_map_2 in Hr.
  apply list_elem_of_fmap in Hr as (i & Heq & _). by injection Heq.
Qed.

(** 1001 rooms are stored, named "0" to "1000", all of them expired at
    time 1; after a startup at time 10 one of them is still stored, and no
    task exists for it. In the order in which this database lists its
    rooms, the room left out is "0". *)
Lemma startup_db_indexes_skips_rooms_witness :
  let w' := (run (startup_db_indexes 10) world_many_rooms).2 in
  (∃ room_id,
     chat_rooms w' !! room_id = Some expired_room ∧
     expires_at expired_room = Some 1 ∧
     (∀ e, (room_id, e) ∉ tasks w')) ∧
  chat_rooms w' !! "0" = Some expired_room.
Proof.
  intros w'.
  assert ((1000 < size (chat_rooms world_many_rooms))%nat) as Hsize
    by (vm_compute; lia).
  destruct (startup_db_indexes_skips_rooms 10 world_many_rooms Hsize)
    as (room_id & r & Hr & Hkept & _ & Htasks).
  split; [|by vm_compute].
  exists room_id. rewrite (many_rooms_expired 1001 room_id r Hr) in Hkept.
  split; [exact Hkept|]. split; [reflexivity|].
  intros e Hin. apply Htasks in Hin. by apply elem_of_nil in Hin.
Defined.



(** The timer of room "r1" fires while the room is stored. *)
Lemma schedule_room_deletion_spec_witness :
  ∃ w', run (schedule_room_deletion "r1") world_one_room = (inr tt, w') ∧
    chat_rooms w' !! "r1" = None ∧
    messages_of "r1" w' = [] ∧
    outbox w' =
      [Emit (room_expired "r1" "This room has expired and been deleted.") (Some "room_r1");
       Emit (room_list_updated "expired" "r1") None] ∧
    run (schedule_room_deletion "r1") w' = (inr tt, w').
Proof.
  destruct (proj1 (proj2 (schedule_room_deletion_spec "r1" world_one_room)))
    as (w' & Hrun & _ & Hgone & _ & Hmsgs & Hout & _).
  - by eexists.
  - exists w'. repeat split; try done.
    by apply (proj1 (schedule_room_deletion_spec "r1" w')).
Defined.

(** ** Joining a room that is past its expiry *)

(** C8. The join handler never reads [expires_at]: a room that is still
    stored although its expiry is at or before the current time accepts a
    new member, where the specification wants the join refused. Here the
    room has no password, no member limit and no ban for the user. *)
Theorem join_room_ignores_expiry (room_id user_id : string) (pw : option string)
    (now e : Z) (w : world) (r : room) :
  chat_rooms w !! room_id = Some r →
  expires_at r = Some e → e ≤ now →
  user_bans user_id r = [] → user_id ∉ members r →
  password r = None → max_members r = None →
  ∃ w' r', run (join_room room_id user_id pw now) w = (inr true, w') ∧
    chat_rooms w' !! room_id = Some r' ∧
    user_id ∈ members r' ∧
    expires_at r' = Some e.
Proof.
  intros Hr He Hle Hbans Hnin Hpw Hmax.
  exists (set_outbox (λ o, o ++ [member_joined room_id])
            (set_chat_rooms (alter (add_to_set_member user_id) room_id) w)),
         (add_to_set_member user_id r).
  split; [|split; [|split]].
  - rewrite (run_join_room _ _ _ _ _ r Hr). unfold join_room_bans.
    rewrite ban_loop_expired by (fold (user_bans user_id r); rewrite Hbans; constructor).
    fold (user_bans user_id r). rewrite decide_True by done.
    unfold join_room_members.
    rewrite (bool_decide_eq_false_2 _ Hnin), Hpw, Hmax. reflexivity.
  - simpl. by rewrite lookup_alter_eq, Hr.
  - simpl. rewrite (bool_decide_eq_false_2 _ Hnin). set_solver.
  - done.
Qed.

(** The room created at time 0 expires at twelve hours; one microsecond
    later, with the room still stored, B joins it. *)
Lemma join_room_ignores_expiry_witness :
  ∃ w' r', run (join_room "r1" "B" None (timedelta_hours 12 + 1)) world_created
           = (inr true, w') ∧
    chat_rooms w' !! "r1" = Some r' ∧
    "B" ∈ members r' ∧
    expires_at r' = Some (timedelta_hours 12).
Proof.
  apply (join_room_ignores_expiry "r1" "B" None (timedelta_hours 12 + 1)
           (timedelta_hours 12) world_created
           (default room_full (chat_rooms world_created !! "r1"))).
  - reflexivity.
  - reflexivity.
  - by vm_compute.
  - reflexivity.
  - by apply (bool_decide_unpack _).
  - reflexivity.
  - reflexivity.
Defined.

(** ** The presence registry *)

Lemma calls_disconnect (sid : string) (st : SocketioServer.registry) (a : SocketioServer.action) :
  a ∈ SocketioServer.calls st →
  a ∈ SocketioServer.calls (SocketioServer.disconnect sid st).
Proof.
  intros Hin. unfold SocketioServer.disconnect.
  destruct (SocketioServer.user_sessions st !! sid) as [user_data|]; [|done].
  destruct (SocketioServer.truthy (SocketioServer.user_id user_data));
    destruct (SocketioServer.truthy (SocketioServer.username user_data));
    simpl; set_solver.
Qed.

Lemma calls_set_nickname (sid : string) (nickname user_id : option string)
    (st : SocketioServer.registry) (a : SocketioServer.action) :
  a ∈ SocketioServer.calls
        (SocketioServer.disconnect_old_session user_id
           (SocketioServer.store_session sid nickname user_id st)) →
  a ∈ SocketioServer.calls (SocketioServer.set_nickname sid nickname user_id st).
Proof. unfold SocketioServer.set_nickname; simpl. set_solver. Qed.

(** Every binding ends with the user mapped to the calling connection: a
    user is bound to at most one connection. *)
Lemma set_nickname_binds (sid : string) (nickname user_id : option string)
    (st : SocketioServer.registry) :
  SocketioServer.connected_users
    (SocketioServer.set_nickname sid nickname user_id st) !! user_id = Some sid.
Proof. unfold SocketioServer.set_nickname; simpl. apply lookup_insert_eq. Qed.

(** Binding a user who is bound to another live connection closes that
    connection. *)
Lemma set_nickname_evicts_other (sid old_sid : string) (nickname user_id : option string)
    (st : SocketioServer.registry) :
  SocketioServer.connected_users st !! user_id = Some old_sid →
  old_sid ≠ sid →
  is_Some (SocketioServer.user_sessions st !! old_sid) →
  SocketioServer.Disconnect old_sid
    ∈ SocketioServer.calls (SocketioServer.set_nickname sid nickname user_id st).
Proof.
  intros Hbound Hne Hlive. apply calls_set_nickname.
  unfold SocketioServer.disconnect_old_session, SocketioServer.store_session.
  destruct (SocketioServer.truthy nickname && SocketioServer.truthy user_id); simpl;
    rewrite Hbound, ?lookup_insert_ne by done;
    rewrite (bool_decide_eq_true_2 _ Hlive);
    apply calls_disconnect; simpl; set_solver.
Qed.

(** C7. Binding a user again on the connection the user is already bound
    to closes that very connection: the handler does not compare the old
    connection with the calling one, where the specification wants this
    re-bind to disconnect nobody. *)
Theorem set_nickname_rebind_disconnects_caller (sid : string)
    (nickname user_id : option string) (st : SocketioServer.registry) :
  SocketioServer.connected_users st !! user_id = Some sid →
  is_Some (SocketioServer.user_sessions st !! sid) →
  SocketioServer.Disconnect sid
    ∈ SocketioServer.calls (SocketioServer.set_nickname sid nickname user_id st).
Proof.
  intros Hbound Hlive. apply calls_set_nickname.
  unfold SocketioServer.disconnect_old_session, SocketioServer.store_session.
  destruct (SocketioServer.truthy nickname && SocketioServer.truthy user_id); simpl;
    rewrite Hbound.
  - rewrite lookup_insert_eq. rewrite bool_decide_eq_true_2 by eauto.
    apply calls_disconnect; simpl; set_solver.
  - rewrite (bool_decide_eq_true_2 _ Hlive).
    apply calls_disconnect; simpl; set_solver.
Qed.

(** Connection "s1" is bound to user "u1" and sets its nickname again. *)
Lemma set_nickname_rebind_disconnects_caller_witness :
  SocketioServer.Disconnect "s1"
    ∈ SocketioServer.calls
        (SocketioServer.set_nickname "s1" (Some "anna") (Some "u1") registry_bound).
Proof.
  apply set_nickname_rebind_disconnects_caller.
  - reflexivity.
  - by eexists.
Defined.

(** * Further properties of the room handlers *)

(** ** The handlers under any spelling of the id *)







(** ** Requests on a room that is not stored *)



(** ** Transfer of the admin rights *)

Lemma run_transfer_admin_done `{!Bson} (room_id _id current new : string)
    (w : world) (r : room) :
  ObjectId room_id = Some _id → chat_rooms w !! _id = Some r →
  admin_id r = current → new ∈ members r →
  run (transfer_admin room_id current new) w
  = (inr true,
     {| chat_rooms := <[_id := transferred_room new r]> (chat_rooms w);
        room_messages := room_messages w;
        outbox := outbox w ++
          [Emit (admin_transferred room_id new) (Some ("room_" +:+ room_id))];
        tasks := tasks w |}).
Proof.
  intros Hid Hr Hadm Hin. unfold transfer_admin.
  rewrite (run_by_id room_id _id) by done. rewrite run_find_one, Hr.
  rewrite bool_decide_eq_false_2 by tauto.
  rewrite bool_decide_eq_false_2 by tauto.
  rewrite (run_by_id room_id _id) by done.
  run_ops. by rewrite (alter_stored _id _ _ r Hr).
Qed.





(** ** Joining as a new member *)

Lemma truthy_str_false (o : option string) :
  truthy_str o = false ↔ o = None ∨ o = Some "".
Proof.
  destruct o as [s|]; simpl.
  - rewrite bool_decide_eq_false. split.
    + intros Hs. right. f_equal. by destruct (decide (s = "")).
    + intros [?|[= ->]]; [done|]. tauto.
  - naive_solver.
Qed.

Lemma truthy_int_false (o : option Z) :
  truthy_int o = false ↔ o = None ∨ o = Some 0.
Proof.
  destruct o as [n|]; simpl.
  - rewrite bool_decide_eq_false. split.
    + intros Hn. right. f_equal. lia.
    + intros [?|[= ->]]; [done|]. lia.
  - naive_solver.
Qed.

Lemma run_join_room_unbanned (room_id user_id : string) (pw : option string) (now : Z)
    (w : world) (r : room) :
  chat_rooms w !! room_id = Some r →
  Forall (λ b, banned_until b ≤ now) (user_bans user_id r) →
  run (join_room room_id user_id pw now) w
  = run (join_room_members room_id user_id pw r) (after_bans room_id user_id r w).
Proof.
  intros Hr Hall. rewrite (run_join_room _ _ _ _ _ r Hr). unfold join_room_bans.
  by rewrite ban_loop_expired.
Qed.

Lemma after_bans_stored (room_id user_id : string) (w : world) (r : room) :
  chat_rooms w !! room_id = Some r →
  ∃ rb, chat_rooms (after_bans room_id user_id r w) !! room_id = Some rb ∧
    members rb = members r ∧ user_bans user_id rb = [] ∧
    (∀ u, u ≠ user_id → user_bans u rb = user_bans u r) ∧
    admin_id rb = admin_id r ∧
    room_messages (after_bans room_id user_id r w) = room_messages w ∧
    outbox (after_bans room_id user_id r w) = outbox w ∧
    tasks (after_bans room_id user_id r w) = tasks w.
Proof.
  intros Hr. unfold after_bans.
  destruct (decide (user_bans user_id r = [])) as [Hnil|Hne].
  - exists r. by repeat split.
  - exists (pull_ban user_id r). simpl. rewrite lookup_alter_eq, Hr.
    repeat split.
    + unfold user_bans, pull_ban; simpl. rewrite list_filter_filter.
      apply filter_nil_intro. intros b _. tauto.
    + intros u Hu. unfold user_bans, pull_ban; simpl. rewrite list_filter_filter.
      apply list_filter_iff. intros b. split; [tauto|]. intros Hb. split; congruence.
Qed.

Lemma run_join_room_members_new (room_id user_id : string) (pw : option string)
    (r : room) (w : world) :
  user_id ∉ members r →
  password_accepts r pw → has_capacity r (length (members r)) →
  run (join_room_members room_id user_id pw r) w
  = (inr true,
     set_outbox (λ o, o ++ [member_joined room_id])
       (set_chat_rooms (alter (add_to_set_member user_id) room_id) w)).
Proof.
  intros Hnin Hpw Hcap.
  unfold join_room_members. rewrite (bool_decide_eq_false_2 _ Hnin).
  assert (truthy_str (password r) && bool_decide (password r ≠ pw) = false) as ->.
  { apply andb_false_iff. destruct Hpw as [Hp|[Hp| Hp]].
    - left. apply truthy_str_false. tauto.
    - left. apply truthy_str_false. tauto.
    - right. by apply bool_decide_eq_false_2; intros ?. }
  assert (truthy_int (max_members r)
          && bool_decide (default 0 (max_members r) ≤ Z.of_nat (length (members r)))
          = false) as ->.
  { apply andb_false_iff. destruct Hcap as [Hm|[Hm|(limit & Hm & Hlt)]].
    - left. apply truthy_int_false. tauto.
    - left. apply truthy_int_false. tauto.
    - right. rewrite Hm. simpl. apply bool_decide_eq_false_2. lia. }
  reflexivity.
Qed.



(** ** Kick, ban and return *)

Lemma user_bans_push (user_id : string) (b : ban) (r : room) :
  user_bans user_id (push_ban b r)
  = user_bans user_id r ++ (if decide (ban_user_id b = user_id) then [b] else []).
Proof.
  unfold user_bans, push_ban; simpl. rewrite filter_app. reflexivity.
Qed.







(** ** What calls do to the world *)

Lemma first_failure {A} (P : A → Prop) `{!∀ x, Decision (P x)} (l : list A) :
  ¬ Forall P l → ∃ l1 x l2, l = l1 ++ x :: l2 ∧ Forall P l1 ∧ ¬ P x.
Proof.
  induction l as [|y l IH]; intros Hnot.
  { destruct Hnot. constructor. }
  destruct (decide (P y)) as [Hy|Hy].
  - destruct IH as (l1 & x & l2 & -> & Hl1 & Hx).
    { intros Hall. apply Hnot. by constructor. }
    exists (y :: l1), x, l2. repeat split; [by constructor|done].
  - exists [], y, l. repeat split; [constructor|done].
Qed.

(** The loop over the ban entries either ends normally, on the world in
    which the membership checks run, or raises, on the same world or on
    the world with the user's entries pulled. *)
Lemma run_join_room_bans_cases (room_id user_id : string) (now : Z) (r : room) (w : world) :
  (Forall (λ b, banned_until b ≤ now) (user_bans user_id r) ∧
   run (join_room_bans room_id user_id now r) w
   = (inr tt, after_bans room_id user_id r w)) ∨
  (∃ e wb, run (join_room_bans room_id user_id now r) w = (inl e, wb) ∧
           (wb = w ∨ wb = bans_pulled room_id user_id w)).
Proof.
  unfold join_room_bans.
  destruct (decide (Forall (λ b, banned_until b ≤ now) (user_bans user_id r)))
    as [Hall|Hnot].
  - left. split; [done|]. by apply ban_loop_expired.
  - right.
    destruct (first_failure (λ b, banned_until b ≤ now) (user_bans user_id r) Hnot)
      as (expired & b & rest & Hsplit & Hexp & Hact).
    rewrite (ban_loop_active room_id user_id now (banned_users r) w expired b rest)
      by (done || lia).
    eexists _, _. split; [done|]. destruct (decide (expired = [])); auto.
Qed.

Lemma run_join_room_members_cases (room_id user_id : string) (pw : option string)
    (r : room) (w : world) :
  (∃ e, run (join_room_members room_id user_id pw r) w = (inl e, w)) ∨
  (user_id ∈ members r ∧
   run (join_room_members room_id user_id pw r) w
   = (inr true, set_outbox (λ o, o ++ [member_joined room_id]) w)) ∨
  ((user_id ∉ members r) ∧
   run (join_room_members room_id user_id pw r) w
   = (inr true,
      set_outbox (λ o, o ++ [member_joined room_id])
        (set_chat_rooms (alter (add_to_set_member user_id) room_id) w))).
Proof.
  destruct (decide (user_id ∈ members r)) as [Hin|Hnin].
  { right; left. split; [done|]. by apply run_join_room_members_member. }
  unfold join_room_members. rewrite (bool_decide_eq_false_2 _ Hnin).
  destruct (truthy_str (password r) && bool_decide (password r ≠ pw)).
  { left. by eexists. }
  destruct (truthy_int (max_members r)
            && bool_decide (default 0 (max_members r) ≤ Z.of_nat (length (members r)))).
  { left. by eexists. }
  right; right. by split.
Qed.

Lemma run_get_room_cases `{!Bson} (room_id _id : string) (now : Z) (w : world) (r : room) :
  ObjectId room_id = Some _id → chat_rooms w !! _id = Some r →
  run (get_room room_id now) w = (inr r, w) ∨
  run (get_room room_id now) w
  = (inl (HTTPError 410 "Room has expired"), room_removed_as _id room_id w).
Proof.
  intros Hid Hr.
  destruct (expires_at r) as [e|] eqn:He.
  - destruct (decide (e ≤ now)) as [Hle|Hgt].
    + right. by apply (run_get_room_expired room_id _id now e w r).
    + left. apply (run_get_room_live room_id _id now w r); [done..|].
      intros e' He'. simplify_eq. lia.
  - left. apply (run_get_room_live room_id _id now w r); [done..|].
    intros e' He'. congruence.
Qed.

Lemma run_transfer_admin_cases `{!Bson} (room_id _id current new : string)
    (w : world) (r : room) :
  ObjectId room_id = Some _id → chat_rooms w !! _id = Some r →
  (∃ e, run (transfer_admin room_id current new) w = (inl e, w)) ∨
  (new ∈ members r ∧
   run (transfer_admin room_id current new) w
   = (inr true,
      {| chat_rooms := <[_id := transferred_room new r]> (chat_rooms w);
         room_messages := room_messages w;
         outbox := outbox w ++
           [Emit (admin_transferred room_id new) (Some ("room_" +:+ room_id))];
         tasks := tasks w |})).
Proof.
  intros Hid Hr.
  destruct (decide (admin_id r = current)) as [Hadm|Hne].
  - destruct (decide (new ∈ members r)) as [Hin|Hnin].
    + right. split; [done|].
      by apply (run_transfer_admin_done room_id _id current new w r).
    + left. unfold transfer_admin.
      rewrite (run_by_id room_id _id) by done. rewrite run_find_one, Hr.
      rewrite bool_decide_eq_false_2 by tauto.
      rewrite (bool_decide_eq_true_2 _ Hnin). by eexists.
  - left. unfold transfer_admin.
    rewrite (run_by_id room_id _id) by done. rewrite run_find_one, Hr.
    rewrite (bool_decide_eq_true_2 _ Hne). by eexists.
Qed.

Lemma run_kick_user_cases `{!Bson} (room_id _id admin target : string) (now : Z)
    (w : world) (r : room) :
  ObjectId room_id = Some _id → chat_rooms w !! _id = Some r →
  (∃ e, run (kick_user room_id admin target now) w = (inl e, w)) ∨
  (admin_id r = admin ∧ target ∈ members r ∧ target ≠ admin).
Proof.
  intros Hid Hr.
  destruct (decide (admin_id r = admin)) as [Hadm|Hne].
  - destruct (decide (target ∈ members r)) as [Hin|Hnin].
    + destruct (decide (target = admin)) as [Heq|Hneq]; [|by right].
      left. rewrite (run_kick_user_self room_id _id admin target now w r) by done.
      by eexists.
    + left. rewrite (run_kick_user_not_member room_id _id admin target now w r) by done.
      by eexists.
  - left. rewrite (run_kick_user_not_admin room_id _id admin target now w r) by done.
    by eexists.
Qed.

(** A path that denotes no id: the handler raises before it reaches the
    database. *)
Lemma run_invalid_id `{!Bson} (room_id : string) (w : world) :
  ObjectId room_id = None →
  let invalid := HTTPError 500 "Internal Server Error" in
  (∀ now, run (get_room room_id now) w = (inl invalid, w)) ∧
  (∀ user_id, run (leave_room room_id user_id) w = (inl invalid, w)) ∧
  (∀ user_id, run (delete_room room_id user_id) w = (inl invalid, w)) ∧
  (∀ admin target now, run (kick_user room_id admin target now) w = (inl invalid, w)) ∧
  (∀ current new, run (transfer_admin room_id current new) w = (inl invalid, w)).
Proof.
  intros Hid invalid.
  repeat split; intros;
    unfold get_room, leave_room, delete_room, kick_user, transfer_admin;
    by rewrite run_by_id_invalid.
Qed.

Lemma pull_ban_none (user_id : string) (r : room) :
  user_bans user_id r = [] → pull_ban user_id r = r.
Proof.
  intros Hnil. destruct r as [? ? ? ? ? ? ? ? ? ? bans].
  unfold pull_ban, with_banned_users, user_bans in *; simpl in *. f_equal.
  induction bans as [|b bans IH]; [done|].
  rewrite filter_cons in Hnil |- *.
  destruct (decide (ban_user_id b = user_id)) as [Hb|Hb]; [done|].
  rewrite decide_True by done. f_equal. by apply IH.
Qed.

Lemma messages_of_same (other : string) (w w' : world) :
  room_messages w' = room_messages w → messages_of other w' = messages_of other w.
Proof. unfold messages_of. by intros ->. Qed.


Lemma outcome_events (key : option string) (room_id : string) (w w' : world) :
  chat_rooms w' = chat_rooms w → room_messages w' = room_messages w →
  tasks w' = tasks w → outbox w `prefix_of` outbox w' →
  outcome key room_id w w'.
Proof.
  intros Hrooms Hmsgs Htasks Hout. split; [by left| |by rewrite Htasks|done].
  intros other _. by apply messages_of_same.
Qed.

Lemma outcome_removed (_id room_id : string) (w w' : world) :
  chat_rooms w' = delete _id (chat_rooms w) →
  room_messages w' = filter (λ m, msg_room_id m ≠ room_id) (room_messages w) →
  tasks w' = tasks w → outbox w `prefix_of` outbox w' →
  outcome (Some _id) room_id w w'.
Proof.
  intros Hrooms Hmsgs Htasks Hout.
  split; [right; exists _id; split; [done|by left]| |by rewrite Htasks|done].
  intros other Hne. unfold messages_of. rewrite Hmsgs.
  by apply messages_of_other_text.
Qed.

Lemma outcome_changed (_id room_id : string) (w w' : world) (r r' : room) :
  chat_rooms w !! _id = Some r → room_change r r' →
  chat_rooms w' = <[_id := r']> (chat_rooms w) →
  room_messages w' = room_messages w →
  tasks w' = tasks w → outbox w `prefix_of` outbox w' →
  outcome (Some _id) room_id w w'.
Proof.
  intros Hr Hchange Hrooms Hmsgs Htasks Hout.
  split; [right; exists _id; split; [done|right; left; eauto]| |by rewrite Htasks|done].
  intros other _. by apply messages_of_same.
Qed.

Lemma bans_pulled_rooms (room_id user_id : string) (w : world) (r : room) :
  chat_rooms w !! room_id = Some r →
  chat_rooms (bans_pulled room_id user_id w)
  = <[room_id := pull_ban user_id r]> (chat_rooms w).
Proof. intros Hr. by apply alter_stored. Qed.

Lemma after_bans_cases (room_id user_id : string) (w : world) (r : room) :
  chat_rooms w !! room_id = Some r →
  (after_bans room_id user_id r w = w ∧ pull_ban user_id r = r) ∨
  after_bans room_id user_id r w = bans_pulled room_id user_id w.
Proof.
  intros Hr. unfold after_bans.
  destruct (decide (user_bans user_id r = [])) as [Hnil|Hne]; [left|by right].
  split; [done|]. by apply pull_ban_none.
Qed.

(** What a join does to the world, whatever its answer. *)
Lemma join_room_outcome (room_id user_id : string) (pw : option string) (now : Z)
    (w : world) (r : room) :
  chat_rooms w !! room_id = Some r →
  outcome (Some room_id) room_id w (run (join_room room_id user_id pw now) w).2.
Proof.
  intros Hr. rewrite (run_join_room _ _ _ _ _ r Hr).
  assert (∀ wb, wb = w ∨ wb = bans_pulled room_id user_id w →
            outcome (Some room_id) room_id w wb) as Hwb.
  { intros wb [->| ->].
    - by apply outcome_events.
    - eapply outcome_changed; [exact Hr|apply (change_ban_pulled user_id)| |done..].
      by apply bans_pulled_rooms. }
  destruct (run_join_room_bans_cases room_id user_id now r w)
    as [[Hall ->]|(e & wb & -> & Hcases)]; [|by apply Hwb].
  assert (after_bans room_id user_id r w = w
          ∨ after_bans room_id user_id r w = bans_pulled room_id user_id w) as Hab.
  { destruct (after_bans_cases room_id user_id w r Hr) as [[? _]|?]; auto. }
  destruct (run_join_room_members_cases room_id user_id pw r
              (after_bans room_id user_id r w)) as [[e ->]|[[_ ->]|[_ ->]]].
  - by apply Hwb.
  - destruct (Hwb _ Hab) as [Hrooms Hmsgs Htasks Hout].
    split; [done|done|done|]. simpl. etrans; [exact Hout|]. by eexists.
  - destruct (after_bans_stored room_id user_id w r Hr)
      as (rb & Hrb & _ & _ & _ & _ & Hmsgs & Hout & Htasks).
    eapply outcome_changed; [exact Hr|apply (change_joined user_id)|..]; simpl.
    + destruct (after_bans_cases room_id user_id w r Hr) as [[-> Hsame]| ->].
      * rewrite Hsame. by apply alter_stored.
      * rewrite (bans_pulled_rooms _ _ _ _ Hr).
        rewrite (alter_stored room_id _ _ (pull_ban user_id r))
          by apply lookup_insert_eq.
        by rewrite insert_insert_eq.
    + done.
    + done.
    + rewrite Hout. by eexists.
Qed.

(** What a call addressed to a room does to the world. *)
Lemma handle_outcome `{!Bson} (c : api_call) (room_id : string) (w : world) :
  call_room c = Some room_id → fresh_id c w →
  outcome (call_id c) room_id w (run (handle c) w).2.
Proof.
  intros Hcall Hfresh.
  destruct c as [data now id|id now|id user pw now|id user|id user
                 |id admin target now|id current new|id user text now|id|now];
    simplify_eq/=.
  - (* create_room *)
    split; simpl; [|done|by eexists|by eexists].
    right. exists room_id. split; [done|]. right; right. eexists. by repeat split.
  - (* get_room *)
    unfold void. rewrite run_bind.
    destruct (ObjectId room_id) as [_id|] eqn:Hid.
    + destruct (chat_rooms w !! _id) as [r|] eqn:Hr.
      * destruct (run_get_room_cases room_id _id now w r Hid Hr) as [-> | ->].
        -- by apply outcome_events.
        -- by apply outcome_removed.
      * rewrite (run_get_room_absent room_id _id) by done. by apply outcome_events.
    + rewrite (proj1 (run_invalid_id room_id w Hid)). by apply outcome_events.
  - (* join_room *)
    unfold void. rewrite run_bind.
    destruct (chat_rooms w !! room_id) as [r|] eqn:Hr.
    + pose proof (join_room_outcome room_id user pw now w r Hr) as Hjoin.
      by destruct (run (join_room room_id user pw now) w) as [[e|b] w'].
    + unfold join_room. rewrite run_find_one, Hr. by apply outcome_events.
  - (* leave_room *)
    unfold void. rewrite run_bind.
    destruct (ObjectId room_id) as [_id|] eqn:Hid.
    + destruct (chat_rooms w !! _id) as [r|] eqn:Hr.
      * destruct (decide (admin_id r = user)) as [Hadm|Hne].
        -- rewrite (run_leave_room_admin room_id _id user w r) by done.
           apply outcome_removed; simpl; [done..|]. by eexists.
        -- rewrite (run_leave_room_member room_id _id user w r) by done.
           eapply outcome_changed; [exact Hr|by apply (change_left user)|..]; simpl;
             [done|done|done|by eexists].
      * unfold leave_room. rewrite (run_by_id room_id _id) by done.
        rewrite run_find_one, Hr. by apply outcome_events.
    + rewrite (proj1 (proj2 (run_invalid_id room_id w Hid))). by apply outcome_events.
  - (* delete_room *)
    unfold void. rewrite run_bind.
    destruct (ObjectId room_id) as [_id|] eqn:Hid.
    + destruct (chat_rooms w !! _id) as [r|] eqn:Hr.
      * destruct (decide (admin_id r = user)) as [Hadm|Hne].
        -- rewrite (run_delete_room_admin room_id _id user w r) by done.
           apply outcome_removed; simpl; [done..|by eexists].
        -- rewrite (run_delete_room_refused room_id _id user w r) by done.
           by apply outcome_events.
      * unfold delete_room. rewrite (run_by_id room_id _id) by done.
        rewrite run_find_one, Hr. by apply outcome_events.
    + rewrite (proj1 (proj2 (proj2 (run_invalid_id room_id w Hid)))).
      by apply outcome_events.
  - (* kick_user *)
    unfold void. rewrite run_bind.
    destruct (ObjectId room_id) as [_id|] eqn:Hid.
    + destruct (chat_rooms w !! _id) as [r|] eqn:Hr.
      * destruct (run_kick_user_cases room_id _id admin target now w r Hid Hr)
          as [[e ->]|(Hadm & Hin & Hne)]; [by apply outcome_events|].
        rewrite (run_kick_user_done room_id _id admin target now w r) by done.
        simpl. split; simpl; [| |done|by eexists].
        -- right. exists _id. split; [done|]. right; left.
           eexists r, _. split; [done|]. split; [|done].
           apply (change_kicked target (now + 300000000) r); [done|congruence].
        -- intros other Hother. unfold messages_of; simpl. rewrite list_filter_filter.
           apply list_filter_iff. intros m. unfold authored. split; [tauto|].
           intros Hm. split; [done|]. intros [Hroom _]. congruence.
      * unfold kick_user. rewrite (run_by_id room_id _id) by done.
        rewrite run_find_one, Hr. by apply outcome_events.
    + rewrite (proj1 (proj2 (proj2 (proj2 (run_invalid_id room_id w Hid))))).
      by apply outcome_events.
  - (* transfer_admin *)
    unfold void. rewrite run_bind.
    destruct (ObjectId room_id) as [_id|] eqn:Hid.
    + destruct (chat_rooms w !! _id) as [r|] eqn:Hr.
      * destruct (run_transfer_admin_cases room_id _id current new w r Hid Hr)
          as [[e ->]|[Hin ->]].
        -- by apply outcome_events.
        -- eapply outcome_changed; [exact Hr|by apply (change_admin new)|..]; simpl;
             [done|done|done|by eexists].
      * unfold transfer_admin. rewrite (run_by_id room_id _id) by done.
        rewrite run_find_one, Hr. by apply outcome_events.
    + rewrite (proj2 (proj2 (proj2 (proj2 (run_invalid_id room_id w Hid))))).
      by apply outcome_events.
  - (* save_room_message *)
    split; simpl; [by left| |done|by eexists].
    intros other Hother. unfold messages_of; simpl.
    rewrite filter_app, filter_cons; simpl.
    rewrite decide_False by congruence. by rewrite app_nil_r.
  - (* schedule_room_deletion *)
    destruct (chat_rooms w !! room_id) as [r|] eqn:Hr.
    + rewrite schedule_room_deletion_present by eauto.
      apply outcome_removed; simpl; [done..|by eexists].
    + rewrite schedule_room_deletion_absent by done. by apply outcome_events.
Qed.

(** ** Rooms do not disturb each other *)



(** ** What stays of a room *)






(** ** What holds of every room that calls can lead to *)

Lemma user_bans_pull_ban (u user_id : string) (r : room) :
  user_bans u (pull_ban user_id r) = if decide (u = user_id) then [] else user_bans u r.
Proof.
  unfold user_bans, pull_ban; simpl. rewrite list_filter_filter.
  destruct (decide (u = user_id)) as [->|Hne].
  - apply filter_nil_intro. intros b _. tauto.
  - apply list_filter_iff. intros b. split; [tauto|]. intros Hb. split; congruence.
Qed.

Lemma room_inv_fresh (r : room) : fresh_room r → room_inv r.
Proof.
  intros (Hadm & Hmem & Hbans & _). unfold room_inv, user_bans.
  rewrite Hadm, Hmem, Hbans. repeat split.
  - set_solver.
  - apply NoDup_singleton.
  - simpl. lia.
Qed.

Lemma room_inv_change (r r' : room) : room_change r r' → room_inv r → room_inv r'.
Proof.
  intros Hchange (Hadm & Hnd & Hmem & Hone).
  destruct Hchange as [user_id r|user_id r|user_id r Hne|target until r Hin Hne
                      |new r Hin|r Hnone].
  - (* the ban entries of a user pulled *)
    repeat split; [done..| |].
    + intros u Hu. rewrite user_bans_pull_ban. destruct (decide _); auto.
    + intros u. rewrite user_bans_pull_ban. destruct (decide _); simpl; [lia|auto].
  - (* a user joined *)
    assert (∀ u, user_bans u (add_to_set_member user_id (pull_ban user_id r))
                 = if decide (u = user_id) then [] else user_bans u r) as Hbans
      by (intros u; exact (user_bans_pull_ban u user_id r)).
    unfold room_inv. simpl.
    destruct (bool_decide (user_id ∈ members r)) eqn:Hdec.
    + repeat split; [done..| |].
      * intros u Hu. rewrite Hbans. destruct (decide _); auto.
      * intros u. rewrite Hbans. destruct (decide _); simpl; [lia|auto].
    + apply bool_decide_eq_false in Hdec. repeat split.
      * set_solver.
      * apply NoDup_app. repeat split; [done| |apply NoDup_singleton].
        intros x Hx Hx'. apply list_elem_of_singleton in Hx'. by subst.
      * intros u Hu. rewrite Hbans. destruct (decide _) as [|Hneq]; [done|].
        apply Hmem. apply elem_of_app in Hu as [?|Hu]; [done|].
        apply list_elem_of_singleton in Hu. done.
      * intros u. rewrite Hbans. destruct (decide _); simpl; [lia|auto].
  - (* a member who is not the admin left *)
    unfold room_inv. simpl. repeat split.
    + apply list_elem_of_filter. by split.
    + by apply NoDup_filter.
    + intros u Hu. apply list_elem_of_filter in Hu as [_ Hu]. by apply Hmem.
    + done.
  - (* a member was kicked *)
    assert (∀ u, user_bans u (push_ban (Ban target until) (pull_member target r))
                 = user_bans u r ++ (if decide (target = u) then [Ban target until] else []))
      as Hbans by (intros u; exact (user_bans_push u (Ban target until) (pull_member target r))).
    unfold room_inv. simpl. repeat split.
    + apply list_elem_of_filter. by split.
    + by apply NoDup_filter.
    + intros u Hu. apply list_elem_of_filter in Hu as [Hu Hin'].
      rewrite Hbans, decide_False by done. rewrite app_nil_r. by apply Hmem.
    + intros u. rewrite Hbans. destruct (decide (target = u)) as [<-|].
      * rewrite (Hmem _ Hin). simpl. lia.
      * rewrite app_nil_r. apply Hone.
  - (* the admin rights were handed over *)
    by repeat split.
  - (* the expiry was backfilled *)
    by repeat split.
Qed.

Lemma world_inv_outcome (key : option string) (room_id : string) (w w' : world) :
  outcome key room_id w w' → world_inv w → world_inv w'.
Proof.
  intros [Hrooms _ _ _] Hinv id r' Hr'.
  destruct Hrooms
    as [Heq|(_id & _ & [Heq|[(r0 & r1 & Hr0 & Hchange & Heq)|(r1 & _ & Hfresh & Heq)]])];
    rewrite Heq in Hr'.
  - by eapply Hinv.
  - apply lookup_delete_Some in Hr' as [_ Hr']. by eapply Hinv.
  - apply lookup_insert_Some in Hr' as [[_ <-]|[_ Hr']]; [|by eapply Hinv].
    eapply room_inv_change; [exact Hchange|]. by eapply Hinv.
  - apply lookup_insert_Some in Hr' as [[_ <-]|[_ Hr']]; [|by eapply Hinv].
    by apply room_inv_fresh.
Qed.

Lemma world_inv_startup (now : Z) (w : world) :
  world_inv w → world_inv (run (startup_db_indexes now) w).2.
Proof.
  intros Hinv id r' Hr'.
  rewrite run_startup_db_indexes in Hr'. simpl in Hr'.
  destruct (listed_rooms_spec w) as (Hnd & Hstored & _).
  destruct (decide (id ∈ (listed_rooms w).*1)) as [Hin|Hnin].
  - apply list_elem_of_fmap in Hin as ([id' r0] & -> & Hin).
    pose proof (Hstored _ _ Hin) as Hr0. simpl in *.
    destruct (startup_loop_self now (listed_rooms w) id' r0 w Hnd Hin Hr0)
      as [Hexpired Hlive].
    destruct (decide (effective_expiry r0 ≤ now)) as [Hle|Hgt].
    + destruct (Hexpired Hle) as [Hgone _]. congruence.
    + rewrite Hlive in Hr' by lia. simplify_eq.
      destruct (Hinv _ _ Hr0) as (? & ? & ? & ?). by repeat split.
  - destruct (startup_loop_other now (listed_rooms w) id w Hnin) as [Hsame _].
    rewrite Hsame in Hr'. by eapply Hinv.
Qed.

Lemma reachable_world_inv `{!Bson} (w : world) : reachable w → world_inv w.
Proof.
  induction 1 as [|w c _ IH Hfresh].
  - intros id r Hr. simpl in Hr. by rewrite lookup_empty in Hr.
  - destruct (call_room c) as [room_id|] eqn:Hcall.
    + eapply world_inv_outcome; [by apply handle_outcome|done].
    + destruct c; simplify_eq/=. by apply world_inv_startup.
Qed.


Lemma reachable_run_calls `{!Bson} (calls : list api_call) :
  ∀ w, reachable w →
    (∀ d now id, CreateRoom d now id ∈ calls → False) →
    reachable (run_calls calls w).
Proof.
  induction calls as [|c calls IH]; intros w Hreach Hnocreate; [done|].
  apply IH.
  - apply reachable_step; [done|].
    destruct c; try exact I. destruct (Hnocreate room_data now inserted_id). left.
  - intros d now id Hin. apply (Hnocreate d now id). by right.
Qed.

Lemma reachable_world_history : @reachable hex_object_id world_history.
Proof.
  apply (@reachable_run_calls hex_object_id
           [JoinRoom "5f0a1b2c3d4e5f6a7b8c9d0e" "B" None 5;
            SaveRoomMessage "5f0a1b2c3d4e5f6a7b8c9d0e" "B" "hello" 6;
            KickUser "5f0a1b2c3d4e5f6a7b8c9d0e" "A" "B" 10]
           (run (@handle hex_object_id
                   (CreateRoom open_room_data 0 "5f0a1b2c3d4e5f6a7b8c9d0e"))
              empty_world).2).
  - apply reachable_step; [apply reachable_empty | reflexivity].
  - intros d now id Hin.
    repeat (apply elem_of_cons in Hin as [Hin|Hin]; [discriminate|]).
    by apply elem_of_nil in Hin.
Qed.


(** ** Joining with a ban entry *)

(** The membership checks of a join for a user who is not a member. *)
Lemma run_join_room_members_outsider (room_id user_id : string) (pw : option string)
    (r : room) (w : world) :
  user_id ∉ members r →
  (¬ password_accepts r pw →
     run (join_room_members room_id user_id pw r) w
     = (inl (HTTPError 403 "Invalid password"), w)) ∧
  (password_accepts r pw → ¬ has_capacity r (length (members r)) →
     run (join_room_members room_id user_id pw r) w
     = (inl (HTTPError 403 "Room is full"), w)).
Proof.
  intros Hnin. unfold join_room_members. rewrite (bool_decide_eq_false_2 _ Hnin).
  change (negb false) with true. cbv iota.
  split.
  - intros Hpw.
    destruct (truthy_str (password r)) eqn:Htruthy.
    + rewrite (bool_decide_eq_true_2 (password r ≠ pw)); [reflexivity|].
      intros Heq. apply Hpw. by right; right.
    + apply truthy_str_false in Htruthy. destruct Hpw.
      unfold password_accepts. tauto.
  - intros Hpw Hcap.
    assert (truthy_str (password r) && bool_decide (password r ≠ pw) = false) as ->.
    { apply andb_false_iff. destruct Hpw as [Hp|[Hp| Hp]].
      - left. apply truthy_str_false. tauto.
      - left. apply truthy_str_false. tauto.
      - right. by apply bool_decide_eq_false_2; intros ?. }
    destruct (truthy_int (max_members r)) eqn:Htruthy.
    + rewrite (bool_decide_eq_true_2 (default 0 (max_members r) ≤ _)); [reflexivity|].
      destruct (max_members r) as [limit|] eqn:Hmax; [|done]. simpl.
      destruct (decide (limit ≤ Z.of_nat (length (members r)))) as [?|Hlt]; [done|].
      destruct Hcap. right; right. exists limit. split; [done|lia].
    + apply truthy_int_false in Htruthy. destruct Hcap.
      unfold has_capacity. tauto.
Qed.

(** C2. In every world that calls lead to from an empty database, take a
    join request by a user who has a ban entry in the room. If the
    entry's [banned_until] is after the current time, the join fails
    with 403 and a detail that carries the remaining time, in whole
    minutes and seconds, and nothing at all is changed. If [banned_until]
    has passed, the entry is removed from the stored room and the join
    goes on to the membership checks, as for any user who is not a
    member: 403 "Invalid password", 403 "Room is full", or success with
    the user appended to the members and the join announced; in each of
    these cases the stored room has lost the entry. *)
Theorem join_room_banned `{!Bson} (room_id user_id : string) (pw : option string)
    (now : Z) (w : world) (r : room) (b : ban) :
  reachable w → chat_rooms w !! room_id = Some r →
  b ∈ banned_users r → ban_user_id b = user_id →
  let remaining := (banned_until b - now) ÷ 1000000 in
  let unbanned members :=
    {| name := name r; description := description r; is_public := is_public r;
       creator_id := creator_id r; admin_id := admin_id r; members := members;
       password := password r; max_members := max_members r;
       created_at := created_at r; expires_at := expires_at r;
       banned_users := filter (λ b', ban_user_id b' ≠ user_id) (banned_users r) |} in
  let stored r' events :=
    {| chat_rooms := <[room_id := r']> (chat_rooms w);
       room_messages := room_messages w; outbox := events; tasks := tasks w |} in
  (now < banned_until b →
     run (join_room room_id user_id pw now) w
     = (inl (HTTPError 403
               ("You are banned from this room for " +:+ pretty (remaining `div` 60)
                +:+ "m " +:+ pretty (remaining `mod` 60) +:+ "s")), w)) ∧
  (banned_until b ≤ now →
     (b ∉ banned_users (unbanned (members r))) ∧
     (¬ password_accepts r pw →
        run (join_room room_id user_id pw now) w
        = (inl (HTTPError 403 "Invalid password"),
           stored (unbanned (members r)) (outbox w))) ∧
     (password_accepts r pw → ¬ has_capacity r (length (members r)) →
        run (join_room room_id user_id pw now) w
        = (inl (HTTPError 403 "Room is full"),
           stored (unbanned (members r)) (outbox w))) ∧
     (password_accepts r pw → has_capacity r (length (members r)) →
        run (join_room room_id user_id pw now) w
        = (inr true,
           stored (unbanned (members r ++ [user_id]))
             (outbox w ++ [Emit (room_list_updated "member_joined" room_id) None])))).
Proof.
  intros Hreach Hr Hb Huser remaining unbanned stored.
  destruct (reachable_world_inv w Hreach room_id r Hr) as (_ & _ & Hmem & Hone).
  assert (b ∈ user_bans user_id r) as Hin by (apply list_elem_of_filter; by split).
  assert (user_bans user_id r = [b]) as Hbans.
  { specialize (Hone user_id).
    destruct (user_bans user_id r) as [|x [|y l]]; simpl in Hone; [| |lia].
    - by apply elem_of_nil in Hin.
    - apply list_elem_of_singleton in Hin. by subst. }
  assert (user_id ∉ members r) as Hnin.
  { intros Hmember. specialize (Hmem _ Hmember). congruence. }
  split.
  - intros Hact. rewrite (run_join_room _ _ _ _ _ r Hr). unfold join_room_bans.
    rewrite (ban_loop_active room_id user_id now (banned_users r) w [] b []);
      [done|done|constructor|lia].
  - intros Hexp.
    assert (Forall (λ b, banned_until b ≤ now) (user_bans user_id r)) as Hall
      by (rewrite Hbans; repeat constructor; done).
    rewrite (run_join_room_unbanned _ _ _ _ _ r Hr Hall).
    unfold after_bans. rewrite decide_False by (rewrite Hbans; discriminate).
    assert (bans_pulled room_id user_id w = stored (unbanned (members r)) (outbox w))
      as Hpulled.
    { unfold bans_pulled, stored. f_equal.
      exact (alter_stored room_id (unbanned_room user_id) _ r Hr). }
    destruct (run_join_room_members_outsider room_id user_id pw r
                (bans_pulled room_id user_id w) Hnin) as [Hpw Hfull].
    split; [|split; [|split]].
    + simpl. rewrite list_elem_of_filter. tauto.
    + intros Hrefused. by rewrite Hpw, Hpulled.
    + intros Haccepted Hnoroom. by rewrite Hfull, Hpulled.
    + intros Haccepted Hroom.
      rewrite run_join_room_members_new by done.
      rewrite Hpulled. unfold stored. run_ops.
      rewrite (alter_stored room_id _ _ (unbanned (members r)))
        by apply lookup_insert_eq.
      rewrite insert_insert_eq. unfold unbanned, add_to_set_member, with_members; simpl.
      by rewrite (bool_decide_eq_false_2 _ Hnin).
Qed.

(** B, kicked at time 10 (in microseconds) and so banned until five
    minutes later, asks to join again one second after the kick, and
    again when the five minutes are over. *)
Lemma join_room_banned_witness :
  run (join_room "5f0a1b2c3d4e5f6a7b8c9d0e" "B" None 1000010) world_history
  = (inl (HTTPError 403 "You are banned from this room for 4m 59s"), world_history) ∧
  ∃ w' r', run (join_room "5f0a1b2c3d4e5f6a7b8c9d0e" "B" None 300000010) world_history
           = (inr true, w') ∧
    chat_rooms w' !! "5f0a1b2c3d4e5f6a7b8c9d0e" = Some r' ∧
    members r' = ["A"; "B"] ∧ banned_users r' = [].
Proof.
  destruct (@join_room_banned hex_object_id "5f0a1b2c3d4e5f6a7b8c9d0e" "B" None 1000010
              world_history
              (default room_full (chat_rooms world_history !! "5f0a1b2c3d4e5f6a7b8c9d0e"))
              (Ban "B" 300000010) reachable_world_history)
    as [Hrefused _].
  { reflexivity. }
  { vm_compute. left. }
  { reflexivity. }
  destruct (@join_room_banned hex_object_id "5f0a1b2c3d4e5f6a7b8c9d0e" "B" None 300000010
              world_history
              (default room_full (chat_rooms world_history !! "5f0a1b2c3d4e5f6a7b8c9d0e"))
              (Ban "B" 300000010) reachable_world_history)
    as [_ Hback].
  { reflexivity. }
  { vm_compute. left. }
  { reflexivity. }
  split.
  - apply Hrefused. reflexivity.
  - destruct Hback as (_ & _ & _ & Hjoined); [simpl; lia|].
    eexists _, _. split.
    + apply Hjoined; by left.
    + split; [apply lookup_insert_eq|]. split; reflexivity.
Defined.

(** ** Requests that are refused *)



(** ** Creating a room *)



(** ** Startup and the tasks it creates *)







(** ** Messages saved without a check *)



(** * Further properties of the presence registry *)




(** ** Binding and unbinding *)









(** ** Taking a user over from another connection *)




(** * Properties of the message handlers *)

(** ** Direct messages *)





(** ** Identities taken in a room join *)


